(** * Ollama FastAPI gateway: shallow embedding of [main.py]

    The gateway is a set of FastAPI handlers, each performing at most one
    HTTP call to the upstream Ollama daemon through [httpx] and turning the
    outcome into an HTTP response.  The handlers are embedded as computations
    in a small monad that reads the upstream's behaviour, logs every request
    issued to it, and either returns a value or raises a Python exception.
    The FastAPI boundary (request-body validation, [response_model]
    serialisation, exception handlers) is the function [respond]. *)

From Stdlib Require Import String Ascii List ZArith QArith Qround Qabs Qpower.
From Stdlib Require Import Lia Lqa Bool.
From Stdlib Require Import DecimalString SpecFloat.
Import ListNotations.

Local Open Scope string_scope.
Local Open Scope Z_scope.

(** ** Strings *)

Module Str.

(** Python's [needle in haystack] on [str]. *)
Fixpoint contains (needle haystack : string) : bool :=
  String.prefix needle haystack ||
  match haystack with
  | EmptyString => false
  | String _ rest => contains needle rest
  end.

(** Python's [str(n)] and [f"{n}"] for an [int]. *)
Definition of_int (n : Z) : string :=
  NilZero.string_of_int (Z.to_int n).

End Str.

(** ** Binary floating point

    A Python [float] is an IEEE 754 binary64 number: [spec_float] with a
    53-bit mantissa, and the operations of the standard library's
    specification of them, which round to nearest, ties to even. *)

(** Round half to even, on an exact rational. *)
Definition round_half_even (x : Q) : Z :=
  let f := Qfloor x in
  match (x - inject_Z f ?= 1 # 2)%Q with
  | Lt => f
  | Gt => f + 1
  | Eq => if Z.even f then f else f + 1
  end.

Module Float.

Definition prec : Z := 53.
Definition emax : Z := 1024.

Definition t : Type := spec_float.

Definition sub : t -> t -> t := SFsub prec emax.
Definition mul : t -> t -> t := SFmul prec emax.
Definition div : t -> t -> t := SFdiv prec emax.

(** The float of an integer literal, as in [1000]. *)
Definition of_Z (n : Z) : t := binary_normalize prec emax n 0 false.

(** Neither an infinity nor a NaN. *)
Definition is_finite (x : t) : bool :=
  match x with
  | S754_zero _ | S754_finite _ _ _ => true
  | _ => false
  end.

(** The exact value of a finite float. *)
Definition to_Q (x : t) : Q :=
  match x with
  | S754_finite s m e => (inject_Z (cond_Zopp s (Zpos m)) * (2 # 1) ^ e)%Q
  | _ => 0%Q
  end.

(** [x >= 0] *)
Definition nonneg (x : t) : bool := SFleb (S754_zero false) x.

(** [x < 0] *)
Definition negative (x : t) : bool := SFltb x (S754_zero false).

(** The float nearest to the decimal [k / scale]; [zero_sign] is the sign
    of the zero when [k] is 0. *)
Definition of_decimal (zero_sign : bool) (k : Z) (scale : positive) : t :=
  match k with
  | Z0 => S754_zero zero_sign
  | Zpos p => div (S754_finite false p 0) (S754_finite false scale 0)
  | Zneg p => div (S754_finite true p 0) (S754_finite false scale 0)
  end.

(** [round(x, ndigits)] for [ndigits >= 0]: CPython writes [x] in decimal
    with [ndigits] digits after the point, correctly rounded from the exact
    value, ties to even, and reads the decimal back as the nearest float;
    an infinity or a NaN rounds to itself, and a zero keeps its sign. *)
Definition round (x : t) (ndigits : nat) : t :=
  match x with
  | S754_finite s m e =>
      let scale := 10 ^ Z.of_nat ndigits in
      of_decimal s (round_half_even (to_Q x * inject_Z scale))
                 (Z.to_pos scale)
  | _ => x
  end.

(** A zero, or a finite float of sign [s] below [2 ^ B] in magnitude. *)
Definition within (B : Z) (s : bool) (x : t) : Prop :=
  match x with
  | S754_zero _ => True
  | S754_finite s' m e => s' = s /\ Zpos (digits2_pos m) + e <= B
  | _ => False
  end.

(** What [time.time()] can return: CPython computes it from a signed
    64-bit count of nanoseconds, so it is a finite double below 2^34 in
    magnitude. *)
Definition is_reading (x : t) : bool :=
  valid_binary prec emax x &&
  match x with
  | S754_zero _ => true
  | S754_finite _ m e => Zpos (digits2_pos m) + e <=? 34
  | _ => false
  end.

Record reading : Type := {
  seconds : t;
  seconds_plausible : is_reading seconds = true
}.

End Float.

(** ** JSON values, as [response.json()] and the request body deliver them *)

Set Warnings "-register-all".

(** A [dict] is the list of its items in insertion order; its keys are
    distinct, and lookup takes the first item with the key. *)
Inductive jvalue : Type :=
| JNull
| JBool (b : bool)
| JInt (n : Z)
| JFloat (x : Float.t)
| JStr (s : string)
| JArr (items : list jvalue)
| JObj (members : list (string * jvalue)).

Fixpoint lookup (key : string) (members : list (string * jvalue))
  : option jvalue :=
  match members with
  | [] => None
  | (k, v) :: rest => if String.eqb k key then Some v else lookup key rest
  end.

(** ** The HTTP exchange with the upstream daemon *)

Inductive Method := GET | POST | DELETE.

Record Request := {
  method : Method;
  url : string;
  json_payload : option jvalue;   (* the [json=] argument *)
  timeout : Q                     (* seconds, of the [AsyncClient] *)
}.

Record Response := {
  status_code : Z;
  text : string;
  json : string + jvalue   (* [inl m]: [.json()] raises, [str(e) = m] *)
}.

(** What one call of [client.get] / [client.delete] can do. *)
Inductive Reply :=
| Responded (r : Response)
| TransportError (message : string)   (* [httpx.RequestError] and subclasses:
                                         connect error, DNS, timeout *)
| Crashed (message : string).         (* any other exception *)

Definition Upstream := Request -> Reply.

(** ** Exceptions *)

(** Errors raised by the interpreter, by Starlette and by pydantic on
    behalf of the handlers.  Their wording belongs to those libraries. *)
Inductive fault :=
| NotAContainer (v : jvalue)                 (* [key in v] *)
| BadSubscript (v : jvalue)                  (* [v[key]] *)
| NotIterable (v : jvalue)                   (* [for x in v] *)
| NoAttribute (v : jvalue) (attr : string)   (* [v.attr] *)
| ValidationError (model : string) (invalid : list (string * jvalue))
                                             (* pydantic: the fields that
                                                failed, with their input *)
| MissingArgument (callee arg : string)
| UnexpectedArgument (callee arg : string)
| ErrorStatus (status : Z).                  (* httpx's own message *)

Inductive exn :=
| HTTPStatusError (response : Response)
| RequestError (message : string)
| HTTPException (status : Z) (detail : string)
| Exception_ (message : string)
| Fault (f : fault).

(** What the repository does not fix: how pydantic coerces a JSON value
    that is not already of the field's type (version 1 turns numbers into
    strings, version 2 does not; both accept some numbers and strings as
    booleans), and the text of library errors. *)
Class Runtime := {
  lax_str : jvalue -> option string;
  lax_bool : jvalue -> option bool;
  describe : fault -> string
}.

Definition exn_str `{Runtime} (e : exn) : string :=
  match e with
  | HTTPStatusError r => describe (ErrorStatus (status_code r))
  | RequestError m => m
  | HTTPException s d => Str.of_int s ++ ": " ++ d
  | Exception_ m => m
  | Fault f => describe f
  end.

(** ** The handler monad *)

Definition M (A : Type) : Type :=
  Upstream -> list Request -> list Request * (exn + A).

Definition ret {A} (a : A) : M A := fun _ log => (log, inr a).

Definition raise {A} (e : exn) : M A := fun _ log => (log, inl e).

Definition bind {A B} (m : M A) (k : A -> M B) : M B :=
  fun up log =>
    match m up log with
    | (log', inr a) => k a up log'
    | (log', inl e) => (log', inl e)
    end.

(** [try: body / except ... as e: handler e]: an exception raised by the
    handler itself is not caught again. *)
Definition try_except {A} (body : M A) (handler : exn -> M A) : M A :=
  fun up log =>
    match body up log with
    | (log', inl e) => handler e up log'
    | r => r
    end.

Definition lift {A} (r : exn + A) : M A := fun _ log => (log, r).

Notation "x <- m ;; k" := (bind m (fun x => k))
  (at level 61, m at next level, right associativity).

(** [await client.get(url)]: the request goes out. *)
Definition send (r : Request) : M Response :=
  fun up log =>
    ((log ++ [r])%list,
     match up r with
     | Responded resp => inr resp
     | TransportError m => inl (RequestError m)
     | Crashed m => inl (Exception_ m)
     end).

(** [await client.delete(url, json=...)]: httpx's [delete] has no [json]
    parameter (nor [content] or [data]); called with one, it raises
    [TypeError] before any request is made. *)
Definition client_delete (seconds : Q) (url_ : string)
           (json_ : option jvalue) : M Response :=
  match json_ with
  | Some _ => raise (Fault (UnexpectedArgument "AsyncClient.delete" "json"))
  | None =>
      send {| method := DELETE; url := url_; json_payload := None;
              timeout := seconds |}
  end.

(** [response.is_success] of httpx: the status is 2xx. *)
Definition is_success (status : Z) : bool :=
  (200 <=? status) && (status <=? 299).

(** [response.raise_for_status()]: httpx raises unless the response
    [is_success]; every 4xx and 5xx status raises. *)
Definition raise_for_status (response : Response) : M unit :=
  if is_success (status_code response)
  then ret tt
  else raise (HTTPStatusError response).

Definition response_json (response : Response) : M jvalue :=
  match json response with
  | inr v => ret v
  | inl m => raise (Exception_ m)
  end.

Fixpoint for_each {A B} (items : list A) (body : A -> B -> M B) (acc : B)
  : M B :=
  match items with
  | [] => ret acc
  | x :: rest => acc' <- body x acc;; for_each rest body acc'
  end.

(** ** Python operations on the parsed JSON *)

Definition char_strings (s : string) : list jvalue :=
  map (fun c => JStr (String c EmptyString)) (list_ascii_of_string s).

(** [key in container] *)
Definition py_in (key : string) (container : jvalue) : exn + bool :=
  match container with
  | JObj d => inr (match lookup key d with Some _ => true | None => false end)
  | JArr l =>
      inr (existsb (fun x => match x with
                             | JStr s => String.eqb s key
                             | _ => false
                             end) l)
  | JStr s => inr (Str.contains key s)
  | v => inl (Fault (NotAContainer v))
  end.

(** [container[key]] for a [str] key *)
Definition py_getitem (container : jvalue) (key : string) : exn + jvalue :=
  match container with
  | JObj d =>
      match lookup key d with
      | Some v => inr v
      | None => inl (Exception_ ("'" ++ key ++ "'"))   (* KeyError *)
      end
  | v => inl (Fault (BadSubscript v))
  end.

(** The items [for x in v] goes through. *)
Definition py_iter (v : jvalue) : exn + list jvalue :=
  match v with
  | JArr l => inr l
  | JObj d => inr (map (fun kv => JStr (fst kv)) d)
  | JStr s => inr (char_strings s)
  | v => inl (Fault (NotIterable v))
  end.

(** [d.get(key, default)] *)
Definition py_get (d : jvalue) (key : string) (default : jvalue)
  : exn + jvalue :=
  match d with
  | JObj m =>
      inr (match lookup key m with Some v => v | None => default end)
  | v => inl (Fault (NoAttribute v "get"))
  end.

(** [json.dumps(v, allow_nan=False)] succeeds: no float in [v] is an
    infinity or a NaN. *)
Fixpoint json_compliant (v : jvalue) : bool :=
  match v with
  | JFloat x => Float.is_finite x
  | JArr items => forallb json_compliant items
  | JObj members =>
      forallb (fun kv => match kv with (_, w) => json_compliant w end)
              members
  | _ => true
  end.

(** ** pydantic field validation *)

Definition validate_str `{Runtime} (v : jvalue) : option string :=
  match v with
  | JStr s => Some s
  | JNull => None
  | _ => lax_str v
  end.

Definition validate_bool `{Runtime} (v : jvalue) : option bool :=
  match v with
  | JBool b => Some b
  | JNull => None
  | _ => lax_bool v
  end.

Definition invalid {A} (field : string) (v : jvalue) (r : option A)
  : list (string * jvalue) :=
  match r with
  | Some _ => []
  | None => [(field, v)]
  end.

Definition validate_optional_str `{Runtime} (v : jvalue)
  : option (option string) :=
  match v with
  | JNull => Some None
  | _ => option_map Some (validate_str v)
  end.

(** ** The models of [main.py] *)

Module OllamaRequest.
Record t := { model : string; prompt : string; stream : bool }.

(** Validation of the request body: [model: str], [prompt: str],
    [stream: bool = False]; keys the class does not declare are ignored. *)
Definition validate `{Runtime} (body : jvalue) : option t :=
  match body with
  | JObj d =>
      match lookup "model" d, lookup "prompt" d with
      | Some m, Some p =>
          match validate_str m, validate_str p,
                match lookup "stream" d with
                | None => Some false
                | Some s => validate_bool s
                end
          with
          | Some m', Some p', Some s' =>
              Some {| model := m'; prompt := p'; stream := s' |}
          | _, _, _ => None
          end
      | _, _ => None
      end
  | _ => None
  end.
End OllamaRequest.

Module OllamaResponse.
Record t := { model : string; response : string; done : bool }.
End OllamaResponse.

Module HealthResponse.
Record t := {
  status : string;
  timestamp : string;
  ollama_connected : bool;
  ollama_url : string
}.
End HealthResponse.

Module OllamaConnectivityResponse.
Record t := {
  connected : bool;
  ollama_url : string;
  response_time_ms : option Float.t;
  error_message : option string
}.
End OllamaConnectivityResponse.

Module ModelInfo.
Record t := {
  name : string;
  size : option string;
  modified : option string
}.

(** [ModelInfo(name=..., size=..., modified=...)]: pydantic validates the
    three arguments and reports every invalid one. *)
Definition new `{Runtime} (name_ size_ modified_ : jvalue) : exn + t :=
  match validate_str name_, validate_optional_str size_,
        validate_optional_str modified_ with
  | Some n, Some s, Some m =>
      inr {| name := n; size := s; modified := m |}
  | n, s, m =>
      inl (Fault (ValidationError "ModelInfo"
        (invalid "name" name_ n ++ invalid "size" size_ s ++
         invalid "modified" modified_ m)%list))
  end.
End ModelInfo.

Module ModelsResponse.
Record t := { models : list ModelInfo.t; count : Z }.
End ModelsResponse.

(** ** The FastAPI boundary *)

Inductive HttpResponse (A : Type) : Type :=
| Ok200 (content : A)                           (* 200, the content as JSON *)
| ErrorDetail (status : Z) (detail : string)    (* [HTTPException]:
                                                   [{"detail": detail}] *)
| NoBody (status : Z)                           (* [HTTPException] with a
                                                   status that allows no
                                                   body *)
| Unprocessable                                 (* 422: the request body
                                                   failed validation;
                                                   [{"detail": [errors]}] *)
| InternalServerError.                          (* 500: an exception nobody
                                                   handled; plain text *)

Arguments Ok200 {A} content.
Arguments ErrorDetail {A} status detail.
Arguments NoBody {A} status.
Arguments Unprocessable {A}.
Arguments InternalServerError {A}.

(** The [detail] of an error body: the message of an [HTTPException], or
    the list of validation errors of a 422, whose entries are pydantic's. *)
Inductive detail_body : Type :=
| Message (text : string)
| ValidationErrors.

(** FastAPI's [is_body_allowed_for_status_code]. *)
Definition body_allowed (status : Z) : bool :=
  negb ((status <? 200) || (status =? 204) || (status =? 205)
        || (status =? 304)).

Definition http_status {A} (r : HttpResponse A) : Z :=
  match r with
  | Ok200 _ => 200
  | ErrorDetail s _ => s
  | NoBody s => s
  | Unprocessable => 422
  | InternalServerError => 500
  end.

(** The [detail] of the JSON error body, when the response has one. *)
Definition http_detail {A} (r : HttpResponse A) : option detail_body :=
  match r with
  | ErrorDetail _ d => Some (Message d)
  | Unprocessable => Some ValidationErrors
  | _ => None
  end.

(** ** The handlers *)

Section Handlers.
Context `{Runtime}.

Definition OLLAMA_API_URL : string := "http://localhost:11434/api/generate".
Definition OLLAMA_BASE_URL : string := "http://localhost:11434".

(** [StreamingResponse()] : Starlette's constructor requires [content]; the
    call passes nothing and raises [TypeError]. *)
Definition StreamingResponse {A} : M A :=
  raise (Fault (MissingArgument "StreamingResponse.__init__" "content")).

(** [@app.post("/api/generate", response_model=OllamaResponse)].  The bare
    [return] of the non-streaming branch returns [None]. *)
Definition generate_text (request : OllamaRequest.t)
  : M (option OllamaResponse.t) :=
  if OllamaRequest.stream request
  then StreamingResponse
  else ret None.

(** [@app.get("/health", response_model=HealthResponse)]; [timestamp] is
    what [time.strftime] gives. *)
Definition health_check (timestamp : string) : M HealthResponse.t :=
  ollama_connected <-
    try_except
      (response <- send {| method := GET;
                           url := OLLAMA_BASE_URL ++ "/api/tags";
                           json_payload := None;
                           timeout := 5 |};;
       if status_code response =? 200 then ret true else ret false)
      (fun _ => ret false);;
  ret {| HealthResponse.status := "healthy";
         HealthResponse.timestamp := timestamp;
         HealthResponse.ollama_connected := ollama_connected;
         HealthResponse.ollama_url := OLLAMA_BASE_URL |}.

(** [@app.get("/api/connectivity")]; [start_time] and [end_time] are the two
    readings of [time.time()] (one before the call, one on whichever path
    the call takes), in seconds. *)
Definition test_ollama_connectivity (start_time end_time : Float.reading)
  : M OllamaConnectivityResponse.t :=
  let response_time_ms :=
    Float.mul (Float.sub (Float.seconds end_time)
                         (Float.seconds start_time))
              (Float.of_Z 1000) in
  try_except
    (response <- send {| method := GET;
                         url := OLLAMA_BASE_URL ++ "/api/tags";
                         json_payload := None;
                         timeout := 10 |};;
     if status_code response =? 200 then
       ret {| OllamaConnectivityResponse.connected := true;
              OllamaConnectivityResponse.ollama_url := OLLAMA_BASE_URL;
              OllamaConnectivityResponse.response_time_ms :=
                Some (Float.round response_time_ms 2);
              OllamaConnectivityResponse.error_message := None |}
     else
       ret {| OllamaConnectivityResponse.connected := false;
              OllamaConnectivityResponse.ollama_url := OLLAMA_BASE_URL;
              OllamaConnectivityResponse.response_time_ms :=
                Some (Float.round response_time_ms 2);
              OllamaConnectivityResponse.error_message :=
                Some ("HTTP " ++ Str.of_int (status_code response) ++ ": "
                      ++ text response) |})
    (fun e =>
       match e with
       | RequestError m =>
           ret {| OllamaConnectivityResponse.connected := false;
                  OllamaConnectivityResponse.ollama_url := OLLAMA_BASE_URL;
                  OllamaConnectivityResponse.response_time_ms :=
                    Some (Float.round response_time_ms 2);
                  OllamaConnectivityResponse.error_message :=
                    Some ("连接错误: " ++ m) |}
       | _ =>
           ret {| OllamaConnectivityResponse.connected := false;
                  OllamaConnectivityResponse.ollama_url := OLLAMA_BASE_URL;
                  OllamaConnectivityResponse.response_time_ms :=
                    Some (Float.round response_time_ms 2);
                  OllamaConnectivityResponse.error_message :=
                    Some ("未知错误: " ++ exn_str e) |}
       end).

(** [models.append(ModelInfo(...))], the body of the loop. *)
Definition append_model_info (model_data : jvalue)
           (models : list ModelInfo.t) : M (list ModelInfo.t) :=
  name <- lift (py_get model_data "name" (JStr "unknown"));;
  size <- lift (py_get model_data "size" JNull);;
  modified <- lift (py_get model_data "modified_at" JNull);;
  model_info <- lift (ModelInfo.new name size modified);;
  ret (models ++ [model_info])%list.

(** [@app.get("/api/models", response_model=ModelsResponse)] *)
Definition get_available_models : M ModelsResponse.t :=
  try_except
    (response <- send {| method := GET;
                         url := OLLAMA_BASE_URL ++ "/api/tags";
                         json_payload := None;
                         timeout := 10 |};;
     _ <- raise_for_status response;;
     ollama_data <- response_json response;;
     has_models <- lift (py_in "models" ollama_data);;
     models <-
       (if has_models : bool then
          entries <- lift (py_getitem ollama_data "models");;
          items <- lift (py_iter entries);;
          for_each items append_model_info []
        else ret []);;
     ret {| ModelsResponse.models := models;
            ModelsResponse.count := Z.of_nat (length models) |})
    (fun e =>
       match e with
       | HTTPStatusError r =>
           raise (HTTPException (status_code r)
                    ("获取模型列表失败: " ++ Str.of_int (status_code r)
                     ++ " - " ++ text r))
       | RequestError m =>
           raise (HTTPException 503 ("无法连接到 Ollama 服务: " ++ m))
       | _ =>
           raise (HTTPException 500
                    ("获取模型列表时发生内部错误: " ++ exn_str e))
       end).

(** [@app.get("/api/version")] *)
Definition get_ollama_version : M jvalue :=
  try_except
    (response <- send {| method := GET;
                         url := OLLAMA_BASE_URL ++ "/api/version";
                         json_payload := None;
                         timeout := 5 |};;
     _ <- raise_for_status response;;
     response_json response)
    (fun e =>
       match e with
       | HTTPStatusError r =>
           raise (HTTPException (status_code r)
                    ("获取版本信息失败: " ++ Str.of_int (status_code r)
                     ++ " - " ++ text r))
       | RequestError m =>
           raise (HTTPException 503 ("无法连接到 Ollama 服务: " ++ m))
       | _ =>
           raise (HTTPException 500
                    ("获取版本信息时发生内部错误: " ++ exn_str e))
       end).

(** [@app.delete("/api/model/{model_name}")] *)
Definition delete_model (model_name : string) : M jvalue :=
  try_except
    (let payload := JObj [("name", JStr model_name)] in
     response <- client_delete 30 (OLLAMA_BASE_URL ++ "/api/delete")
                               (Some payload);;
     _ <- raise_for_status response;;
     ret (JObj [("message",
                 JStr ("模型 '" ++ model_name ++ "' 删除成功"))]))
    (fun e =>
       match e with
       | HTTPStatusError r =>
           if status_code r =? 404 then
             raise (HTTPException 404
                      ("模型 '" ++ model_name ++ "' 未找到"))
           else
             raise (HTTPException (status_code r)
                      ("删除模型失败: " ++ Str.of_int (status_code r)
                       ++ " - " ++ text r))
       | RequestError m =>
           raise (HTTPException 503 ("无法连接到 Ollama 服务: " ++ m))
       | _ =>
           raise (HTTPException 500
                    ("删除模型时发生内部错误: " ++ exn_str e))
       end).

(** [@app.get("/")] *)
Definition read_root : M jvalue :=
  ret (JObj [("message", JStr "欢迎使用 Ollama FastAPI 服务器!")]).

(** ** The routes *)

(** Runs a handler against an upstream: the requests it issued, and the
    response FastAPI builds.  [response_model] validates and serialises
    what the handler returned; a value it rejects is an unhandled error.
    An [HTTPException] becomes [{"detail": ...}] unless its status allows
    no body. *)
Definition respond {A B} (response_model : A -> option B) (handler : M A)
           (upstream : Upstream) : list Request * HttpResponse B :=
  match handler upstream [] with
  | (log, inr a) =>
      (log, match response_model a with
            | Some b => Ok200 b
            | None => InternalServerError
            end)
  | (log, inl (HTTPException s d)) =>
      (log, if body_allowed s then ErrorDetail s d else NoBody s)
  | (log, inl _) => (log, InternalServerError)
  end.

(** A handler whose return value already is an instance of its
    [response_model] and holds no float, or holds only strings. *)
Definition as_is {A} (a : A) : option A := Some a.

(** A handler without [response_model] that returns parsed JSON:
    [JSONResponse] renders it with [allow_nan=False]. *)
Definition as_json (v : jvalue) : option jvalue :=
  if json_compliant v then Some v else None.

(** [response_model=OllamaConnectivityResponse]: the one float of the
    response must be finite to be rendered. *)
Definition as_OllamaConnectivityResponse (c : OllamaConnectivityResponse.t)
  : option OllamaConnectivityResponse.t :=
  match OllamaConnectivityResponse.response_time_ms c with
  | Some ms => if Float.is_finite ms then Some c else None
  | None => Some c
  end.

(** [response_model=OllamaResponse]: [None] is not an [OllamaResponse];
    FastAPI raises its response validation error, which no handler
    catches. *)
Definition as_OllamaResponse (v : option OllamaResponse.t)
  : option OllamaResponse.t := v.

(** The routes. *)
Definition post_api_generate (body : jvalue) (upstream : Upstream)
  : list Request * HttpResponse OllamaResponse.t :=
  match OllamaRequest.validate body with
  | Some request => respond as_OllamaResponse (generate_text request) upstream
  | None => ([], Unprocessable)
  end.

Definition get_health (timestamp : string) :=
  respond as_is (health_check timestamp).

Definition get_api_connectivity (start_time end_time : Float.reading) :=
  respond as_OllamaConnectivityResponse
          (test_ollama_connectivity start_time end_time).

Definition get_api_models := respond as_is get_available_models.

Definition get_api_version := respond as_json get_ollama_version.

Definition delete_api_model (model_name : string) :=
  respond as_is (delete_model model_name).

Definition get_root := respond as_is read_root.

End Handlers.

(** ** Concrete environments, for running the handlers *)

(** A runtime in the manner of pydantic 2: a JSON number is no string;
    the numbers 0 and 1 are booleans. *)
Definition pydantic2 : Runtime := {|
  lax_str := fun _ => None;
  lax_bool := fun v =>
    match v with
    | JInt 0 => Some false
    | JInt 1 => Some true
    | _ => None
    end;
  describe := fun f =>
    match f with
    | NotAContainer _ => "TypeError: argument is not iterable"
    | BadSubscript _ => "TypeError: indices must be integers"
    | NotIterable _ => "TypeError: object is not iterable"
    | NoAttribute _ attr => "AttributeError: no attribute '" ++ attr ++ "'"
    | ValidationError model _ => "validation error for " ++ model
    | MissingArgument callee arg =>
        "TypeError: " ++ callee ++ "() missing argument '" ++ arg ++ "'"
    | UnexpectedArgument callee arg =>
        callee ++ "() got an unexpected keyword argument '" ++ arg ++ "'"
    | ErrorStatus s => "HTTPStatusError: " ++ Str.of_int s
    end
|}.

(** An upstream that gives the same reply to every request. *)
Definition always (reply : Reply) : Upstream := fun _ => reply.

Definition json_reply (status : Z) (body : string) (data : jvalue) : Reply :=
  Responded {| status_code := status; text := body; json := inr data |}.

Definition text_reply (status : Z) (body : string) : Reply :=
  Responded {| status_code := status; text := body;
               json := inl "Expecting value: line 1 column 1 (char 0)" |}.

Definition tags_request (seconds : Q) : Request :=
  {| method := GET; url := OLLAMA_BASE_URL ++ "/api/tags";
     json_payload := None; timeout := seconds |}.

Definition version_request : Request :=
  {| method := GET; url := OLLAMA_BASE_URL ++ "/api/version";
     json_payload := None; timeout := 5 |}.

(** The detail of the delete route: the phrase of its last [except]
    clause and the text of the [TypeError] of [client.delete]. *)
Definition delete_failure `{Runtime} : string :=
  "删除模型时发生内部错误: "
  ++ describe (UnexpectedArgument "AsyncClient.delete" "json").

(** Clock readings for the examples: 10.0, 10.5, 0.0 and 0.000125. *)
Definition ten_seconds : Float.reading :=
  {| Float.seconds := S754_finite false 5629499534213120 (-49);
     Float.seconds_plausible := eq_refl |}.

Definition ten_and_a_half_seconds : Float.reading :=
  {| Float.seconds := S754_finite false 5910974510923776 (-49);
     Float.seconds_plausible := eq_refl |}.

Definition zero_seconds : Float.reading :=
  {| Float.seconds := S754_zero false;
     Float.seconds_plausible := eq_refl |}.

Definition eighth_of_a_millisecond : Float.reading :=
  {| Float.seconds := S754_finite false 4611686018427388 (-65);
     Float.seconds_plausible := eq_refl |}.

(** The elapsed time in milliseconds as the connectivity probe computes
    it. *)
Definition elapsed_ms (start_time end_time : Float.reading) : Float.t :=
  Float.round
    (Float.mul (Float.sub (Float.seconds end_time)
                          (Float.seconds start_time))
               (Float.of_Z 1000)) 2.

(** The request FastAPI hands to [generate_text] for a JSON body with the
    two strings and, possibly, the flag. *)
Definition generate_body (model prompt : string) (stream : option bool)
  : jvalue :=
  JObj ([("model", JStr model); ("prompt", JStr prompt)] ++
        match stream with
        | Some b => [("stream", JBool b)]
        | None => []
        end)%list.



(** ** Vocabulary of the properties *)

(** The upstream answers [request] with status 200. *)
Definition answers_200 (up : Upstream) (request : Request) : Prop :=
  exists r, up request = Responded r /\ status_code r = 200.


(** The mapping of one entry as the specification words it: [name], or
    "unknown" when absent; [size] passed through, or absent; [modified_at]
    under the name [modified]. *)
Definition entry_maps (entry : jvalue) (info : ModelInfo.t) : Prop :=
  exists d,
    entry = JObj d /\
    (lookup "name" d = None -> ModelInfo.name info = "unknown") /\
    (forall s, lookup "name" d = Some (JStr s) -> ModelInfo.name info = s) /\
    (lookup "size" d = None -> ModelInfo.size info = None) /\
    (forall s, lookup "size" d = Some (JStr s) ->
               ModelInfo.size info = Some s) /\
    (lookup "modified_at" d = None -> ModelInfo.modified info = None) /\
    (forall s, lookup "modified_at" d = Some (JStr s) ->
               ModelInfo.modified info = Some s).





(** What a client observes of a route: the upstream requests made on its
    behalf, the status, and the [detail] of the error body if there is
    one. *)
Definition observed {A} (r : list Request * HttpResponse A)
  : list Request * Z * option detail_body :=
  (fst r, http_status (snd r), http_detail (snd r)).

(** The two routes that do proxy one upstream call behind
    [raise_for_status], each with the request it sends. *)
Definition proxied_routes `{Runtime}
  : list (Request * (Upstream -> list Request * Z * option detail_body)) :=
  [ (tags_request 10, fun up => observed (get_api_models up));
    (version_request, fun up => observed (get_api_version up)) ].

(** A computation that issues no upstream request. *)
Definition quiet {A} (m : M A) : Prop :=
  forall up log, fst (m up log) = log.

(** A JSON scalar that is no string: [None], a boolean or a number. *)
Definition is_plain_scalar (v : jvalue) : bool :=
  match v with
  | JNull | JBool _ | JInt _ | JFloat _ => true
  | _ => false
  end.

Definition is_object (v : jvalue) : bool :=
  match v with
  | JObj _ => true
  | _ => false
  end.

(** An entry of the listing the loop cannot turn into a [ModelInfo]
    whatever the pydantic version: one that is no object, or whose [name]
    is [null]. *)
Definition rejected_entry (v : jvalue) : bool :=
  match v with
  | JObj d =>
      match lookup "name" d with
      | Some JNull => true
      | _ => false
      end
  | _ => true
  end.

(** The [error_message] of the connectivity probe, by what the upstream
    call did. *)
Definition probe_message (reply : Reply) : option string :=
  match reply with
  | Responded r =>
      if status_code r =? 200 then None
      else Some ("HTTP " ++ Str.of_int (status_code r) ++ ": " ++ text r)
  | TransportError m => Some ("连接错误: " ++ m)
  | Crashed m => Some ("未知错误: " ++ m)
  end.



(** An upstream listing for the examples: status 204, no [models]. *)
Definition no_content : Response :=
  {| status_code := 204; text := "{}"; json := inr (JObj []) |}.

(** A listing whose second entry is a string. *)
Definition broken_listing : Response :=
  {| status_code := 200; text := "{...}";
     json := inr (JObj [("models",
                         JArr [JObj [("name", JStr "llama3:latest")];
                               JStr "mistral"])]) |}.

(** A [dict] or a [str]: what the loop can iterate over without getting
    objects. *)
Definition is_mapping_or_text (v : jvalue) : bool :=
  match v with
  | JObj _ | JStr _ => true
  | _ => false
  end.

Definition iterates_nothing (v : jvalue) : bool :=
  match v with
  | JObj [] | JStr EmptyString | JArr [] => true
  | _ => false
  end.

Definition empty_listing : ModelsResponse.t :=
  {| ModelsResponse.models := []; ModelsResponse.count := 0 |}.

(** * Properties *)

(** ** Substrings *)

Module StrFacts.

Lemma prefix_app (s t : string) : String.prefix s (s ++ t) = true.
Proof.
  induction s as [|c s IH]; simpl.
  - now destruct t.
  - destruct (ascii_dec c c) as [_|ne]; [exact IH | now elim ne].
Qed.

Lemma contains_prefix (needle haystack : string) :
  String.prefix needle haystack = true ->
  Str.contains needle haystack = true.
Proof.
  intros H. destruct haystack; cbn [Str.contains]; rewrite H; reflexivity.
Qed.

Lemma contains_here (needle post : string) :
  Str.contains needle (needle ++ post) = true.
Proof. apply contains_prefix, prefix_app. Qed.

Lemma contains_app (pre needle post : string) :
  Str.contains needle (pre ++ needle ++ post) = true.
Proof.
  induction pre as [|c pre IH]; cbn [append Str.contains].
  - apply contains_here.
  - rewrite IH. apply orb_true_r.
Qed.

Lemma app_empty_r (s : string) : s ++ EmptyString = s.
Proof. induction s; simpl; congruence. Qed.

Lemma contains_tail (pre needle : string) :
  Str.contains needle (pre ++ needle) = true.
Proof.
  rewrite <- (app_empty_r needle) at 2. apply contains_app.
Qed.

Lemma app_assoc (a b c : string) : (a ++ b) ++ c = a ++ b ++ c.
Proof. induction a; simpl; congruence. Qed.

End StrFacts.

Example of_int_404 : Str.of_int 404 = "404".
Proof. reflexivity. Qed.

Example contains_not_found :
  Str.contains "未找到" "模型 'llama3' 未找到" = true.
Proof. reflexivity. Qed.

(** ** [generate_text] *)

Section Generate.
Context `{Runtime}.

(** Whatever the request and the upstream, [generate_text] issues no
    upstream request and returns nothing FastAPI can send as an
    [OllamaResponse]. *)
Lemma generate_text_stub (request : OllamaRequest.t) (up : Upstream) :
  respond as_OllamaResponse (generate_text request) up
  = ([], InternalServerError).
Proof.
  unfold respond, generate_text.
  destruct (OllamaRequest.stream request); reflexivity.
Qed.

Lemma post_api_generate_stub (body : jvalue) (up : Upstream) :
  post_api_generate body up = ([], InternalServerError) \/
  post_api_generate body up = ([], Unprocessable).
Proof.
  unfold post_api_generate.
  destruct (OllamaRequest.validate body).
  - left. apply generate_text_stub.
  - now right.
Qed.

Lemma validate_generate_body (model prompt : string) (stream : option bool) :
  OllamaRequest.validate (generate_body model prompt stream)
  = Some {| OllamaRequest.model := model;
            OllamaRequest.prompt := prompt;
            OllamaRequest.stream :=
              match stream with Some b => b | None => false end |}.
Proof. destruct stream; reflexivity. Qed.

Lemma post_api_generate_valid (model prompt : string) (stream : option bool)
      (up : Upstream) :
  post_api_generate (generate_body model prompt stream) up
  = ([], InternalServerError).
Proof.
  unfold post_api_generate. rewrite validate_generate_body.
  apply generate_text_stub.
Qed.

End Generate.

(** ** The proxied endpoints: upstream errors *)

Section Proxies.
Context `{Runtime}.

Ltac run_handler E :=
  unfold tags_request, version_request in *;
  unfold respond, try_except, bind, send, raise_for_status, raise, ret;
  cbn [app]; rewrite E.

Lemma get_api_models_status_error (up : Upstream) (r : Response) :
  up (tags_request 10) = Responded r ->
  is_success (status_code r) = false ->
  get_api_models up
  = ([tags_request 10],
     if body_allowed (status_code r) then
       ErrorDetail (status_code r)
         ("获取模型列表失败: " ++ Str.of_int (status_code r) ++ " - "
          ++ text r)
     else NoBody (status_code r)).
Proof.
  intros E S. unfold get_api_models, get_available_models.
  run_handler E. rewrite S. reflexivity.
Qed.

Lemma get_api_version_status_error (up : Upstream) (r : Response) :
  up version_request = Responded r ->
  is_success (status_code r) = false ->
  get_api_version up
  = ([version_request],
     if body_allowed (status_code r) then
       ErrorDetail (status_code r)
         ("获取版本信息失败: " ++ Str.of_int (status_code r) ++ " - "
          ++ text r)
     else NoBody (status_code r)).
Proof.
  intros E S. unfold get_api_version, get_ollama_version.
  run_handler E. rewrite S. reflexivity.
Qed.

(** [client.delete] raises before the request is made: the route answers
    the same 500 whatever the model and the upstream. *)
Lemma delete_api_model_fails (name : string) (up : Upstream) :
  delete_api_model name up = ([], ErrorDetail 500 delete_failure).
Proof. reflexivity. Qed.

Lemma get_api_models_unreachable (up : Upstream) (m : string) :
  up (tags_request 10) = TransportError m ->
  get_api_models up
  = ([tags_request 10], ErrorDetail 503 ("无法连接到 Ollama 服务: " ++ m)).
Proof.
  intros E. unfold get_api_models, get_available_models.
  run_handler E. reflexivity.
Qed.

Lemma get_api_version_unreachable (up : Upstream) (m : string) :
  up version_request = TransportError m ->
  get_api_version up
  = ([version_request], ErrorDetail 503 ("无法连接到 Ollama 服务: " ++ m)).
Proof.
  intros E. unfold get_api_version, get_ollama_version.
  run_handler E. reflexivity.
Qed.

(** The messages embed what the specification asks for. *)
Lemma status_detail_embeds (prefix : string) (status : Z) (body : string) :
  let detail := prefix ++ Str.of_int status ++ " - " ++ body in
  Str.contains (Str.of_int status) detail = true /\
  Str.contains body detail = true.
Proof.
  cbv zeta. split.
  - apply StrFacts.contains_app.
  - rewrite <- (StrFacts.app_assoc (Str.of_int status) " - " body).
    rewrite <- StrFacts.app_assoc. apply StrFacts.contains_tail.
Qed.

Lemma unreachable_detail_embeds (m : string) :
  let detail := "无法连接到 Ollama 服务: " ++ m in
  Str.contains "无法连接到 Ollama 服务" detail = true /\
  Str.contains m detail = true.
Proof.
  cbv zeta. split.
  - apply (StrFacts.contains_app EmptyString "无法连接到 Ollama 服务"
             (": " ++ m)).
  - apply StrFacts.contains_tail.
Qed.

End Proxies.

(** ** The generate endpoint against its test scenarios *)

Section GenerateScenarios.
Context `{Runtime}.

(** C1, at the scenario of [test_generate_text_success]: the body
    [{"model": "test-model", "prompt": "hi"}] is valid and the upstream
    would answer 200 with [model], [response] and [done]; the gateway issues
    no upstream request and answers 500 instead of passing the three fields
    through. *)
Theorem generate_success_not_forwarded :
  post_api_generate
    (JObj [("model", JStr "test-model"); ("prompt", JStr "hi")])
    (always (json_reply 200 "{...}"
       (JObj [("model", JStr "test-model"); ("response", JStr "hello");
              ("done", JBool true)])))
  = ([], InternalServerError).
Proof. reflexivity. Qed.

(** C2, at the scenario of [test_generate_text_ollama_model_not_found]: with
    an upstream that answers 404, neither route answers 404.  The generate
    route answers a bare 500 without calling the upstream; the delete
    route, whose [client.delete(..., json=...)] raises before any request,
    answers 500 with its internal-error phrase and the [TypeError] text,
    never reaching the 404 branch that would name the model. *)
Theorem generate_not_found_not_reported :
  let upstream :=
    always (text_reply 404
              "Ollama error: model 'non-existent-model' not found") in
  post_api_generate
    (JObj [("model", JStr "non-existent-model"); ("prompt", JStr "hi")])
    upstream
  = ([], InternalServerError) /\
  delete_api_model "non-existent-model" upstream
  = ([], ErrorDetail 500 delete_failure).
Proof. split; reflexivity. Qed.

(** C3, at the scenario of [test_generate_text_ollama_malformed_response]:
    the upstream would answer 200 without [response]; the gateway answers
    500, but as an unhandled error that carries no [detail], hence no
    message about the upstream's response format. *)
Theorem generate_malformed_has_no_message :
  let answer :=
    post_api_generate
      (JObj [("model", JStr "test-model"); ("prompt", JStr "hi")])
      (always (json_reply 200 "{...}"
         (JObj [("model", JStr "m"); ("done", JBool true)]))) in
  answer = ([], InternalServerError) /\
  http_status (snd answer) = 500 /\
  http_detail (snd answer) = None.
Proof. repeat split; reflexivity. Qed.

(** C4: with [stream] set, the handler calls [StreamingResponse()] without
    its content; the gateway forwards nothing (no upstream request) and
    rejects nothing with a message: it answers the bare 500 of an unhandled
    error. *)
Theorem generate_stream_crashes :
  let answer :=
    post_api_generate
      (JObj [("model", JStr "llama3"); ("prompt", JStr "hi");
             ("stream", JBool true)])
      (always (json_reply 200 "{...}"
         (JObj [("model", JStr "llama3"); ("response", JStr "hello");
                ("done", JBool false)]))) in
  answer = ([], InternalServerError) /\
  http_detail (snd answer) = None.
Proof. split; reflexivity. Qed.

(** C6, at the scenario of [test_generate_text_ollama_other_http_error]: the
    upstream would answer 400; the generate endpoint answers 500 and drops
    the upstream's status and body, where the model listing passes both
    on. *)
Theorem generate_upstream_status_dropped :
  let upstream := always (text_reply 400 "Ollama error: bad request") in
  post_api_generate
    (JObj [("model", JStr "some-model"); ("prompt", JStr "hi")]) upstream
  = ([], InternalServerError) /\
  get_api_models upstream
  = ([tags_request 10],
     ErrorDetail 400 "获取模型列表失败: 400 - Ollama error: bad request").
Proof. split; reflexivity. Qed.

(** C7, at the scenario of [test_generate_text_ollama_request_error]: the
    upstream refuses the connection; the generate endpoint answers 500, not
    503, where the model listing answers 503 with the transport error. *)
Theorem generate_unreachable_not_503 :
  let upstream := always (TransportError "Connection refused") in
  post_api_generate
    (JObj [("model", JStr "any-model"); ("prompt", JStr "hi")]) upstream
  = ([], InternalServerError) /\
  get_api_models upstream
  = ([tags_request 10],
     ErrorDetail 503 "无法连接到 Ollama 服务: Connection refused").
Proof. split; reflexivity. Qed.

End GenerateScenarios.

(** ** Floating point *)

Module FloatFacts.

(** *** Digits *)

Lemma digits_bounds (p : positive) :
  2 ^ (Zpos (digits2_pos p) - 1) <= Zpos p < 2 ^ Zpos (digits2_pos p).
Proof.
  induction p as [p IH|p IH|]; cbn [digits2_pos].
  - rewrite Pos2Z.inj_succ, Pos2Z.inj_xI.
    replace (Z.succ (Zpos (digits2_pos p)) - 1)
      with (Z.succ (Zpos (digits2_pos p) - 1)) by lia.
    rewrite (Z.pow_succ_r 2 (Zpos (digits2_pos p) - 1)) by lia.
    rewrite (Z.pow_succ_r 2 (Zpos (digits2_pos p))) by lia.
    lia.
  - rewrite Pos2Z.inj_succ. change (Zpos p~0) with (2 * Zpos p).
    replace (Z.succ (Zpos (digits2_pos p)) - 1)
      with (Z.succ (Zpos (digits2_pos p) - 1)) by lia.
    rewrite (Z.pow_succ_r 2 (Zpos (digits2_pos p) - 1)) by lia.
    rewrite (Z.pow_succ_r 2 (Zpos (digits2_pos p))) by lia.
    lia.
  - cbn. lia.
Qed.

Lemma digits_le (m n : Z) :
  0 <= m < 2 ^ n -> 0 <= n -> Zdigits2 m <= n.
Proof.
  intros [L U] Hn. destruct m as [|p|p]; cbn [Zdigits2]; [lia| |lia].
  destruct (digits_bounds p) as [Lp _].
  destruct (Z.le_gt_cases (Zpos (digits2_pos p)) n) as [|G]; [assumption|].
  exfalso.
  assert (2 ^ n <= 2 ^ (Zpos (digits2_pos p) - 1))
    by (apply Z.pow_le_mono_r; lia).
  lia.
Qed.

Lemma digits_nonneg (m : Z) : 0 <= Zdigits2 m.
Proof. destruct m; cbn; lia. Qed.

Lemma digits_lt (m : Z) : 0 <= m -> m < 2 ^ Zdigits2 m.
Proof.
  destruct m as [|p|p]; cbn [Zdigits2]; intros; [cbn; lia| |lia].
  apply digits_bounds.
Qed.

Lemma digits_mono (a b : Z) : 0 <= a <= b -> Zdigits2 a <= Zdigits2 b.
Proof.
  intros [La Lab]. apply digits_le; [|apply digits_nonneg].
  pose proof (digits_lt b). lia.
Qed.

Lemma digits_succ (m : Z) : 0 <= m -> Zdigits2 (m + 1) <= Zdigits2 m + 1.
Proof.
  intros Hm. pose proof (digits_nonneg m). pose proof (digits_lt m Hm).
  apply digits_le; [|lia].
  rewrite Z.pow_add_r by lia. cbn. lia.
Qed.

Lemma digits_mul (a b : positive) :
  Zpos (digits2_pos (a * b))
  <= Zpos (digits2_pos a) + Zpos (digits2_pos b).
Proof.
  change (Zdigits2 (Zpos (a * b))
          <= Zpos (digits2_pos a) + Zpos (digits2_pos b)).
  apply digits_le; [|lia].
  destruct (digits_bounds a) as [_ Ha]. destruct (digits_bounds b) as [_ Hb].
  rewrite Z.pow_add_r by lia. rewrite Pos2Z.inj_mul. nia.
Qed.

Lemma digits_div2 (m : Z) :
  0 <= m -> 0 <= Z.div2 m /\ Zdigits2 (Z.div2 m) <= Z.max (Zdigits2 m - 1) 0.
Proof.
  destruct m as [|[p|p|]|p];
    cbn [Z.div2 PosDef.Pos.div2 Zdigits2 digits2_pos]; intros;
    try rewrite Pos2Z.inj_succ; lia.
Qed.

(** *** Shifting right *)

Lemma iter_pos_count {A} (f : A -> A) (P : Z -> A -> Prop) :
  (forall k x, P k x -> P (k + 1) (f x)) ->
  forall p k x, P k x -> P (k + Zpos p) (iter_pos f p x).
Proof.
  intros Hf. induction p as [p IH|p IH|]; intros k x Hx; cbn [iter_pos].
  - replace (k + Zpos p~1) with (k + 1 + Zpos p + Zpos p) by lia.
    apply IH, IH, Hf, Hx.
  - replace (k + Zpos p~0) with (k + Zpos p + Zpos p) by lia.
    apply IH, IH, Hx.
  - apply Hf, Hx.
Qed.

Lemma shr_1_m (r : shr_record) :
  0 <= shr_m r -> shr_m (shr_1 r) = Z.div2 (shr_m r).
Proof.
  destruct r as [[|[p|p|]|p] r s]; cbn; intros; try reflexivity; lia.
Qed.

Lemma shr_m_of_loc (m : Z) (l : location) :
  shr_m (shr_record_of_loc m l) = m.
Proof. destruct l as [|[]]; reflexivity. Qed.

Lemma shr_spec (r : shr_record) (e n : Z) :
  0 <= shr_m r ->
  0 <= shr_m (fst (shr r e n)) /\
  Zdigits2 (shr_m (fst (shr r e n))) + snd (shr r e n)
  <= Z.max (Zdigits2 (shr_m r) + e) (e + n) /\
  snd (shr r e n) <= Z.max e (e + n).
Proof.
  intros Hr. destruct n as [|p|p]; cbn [shr fst snd]; try lia.
  assert (0 <= shr_m (iter_pos shr_1 p r) /\
          Zdigits2 (shr_m (iter_pos shr_1 p r))
          <= Z.max (Zdigits2 (shr_m r) - (0 + Zpos p)) 0) as [J0 J1].
  { apply (iter_pos_count shr_1
             (fun k x => 0 <= shr_m x /\
                         Zdigits2 (shr_m x)
                         <= Z.max (Zdigits2 (shr_m r) - k) 0)).
    - intros k x [P0 P1]. rewrite shr_1_m by assumption.
      destruct (digits_div2 (shr_m x) P0) as [Q0 Q1]. split; lia.
    - split; lia. }
  split; [assumption|]. split; lia.
Qed.


(** *** Rounding to a float *)

Lemma round_nearest_even_digits (m : Z) (l : location) :
  0 <= m ->
  0 <= round_nearest_even m l /\
  Zdigits2 (round_nearest_even m l) <= Zdigits2 m + 1.
Proof.
  intros Hm. pose proof (digits_succ m Hm).
  unfold round_nearest_even.
  destruct l as [|[]]; try destruct (Z.even m); split; lia.
Qed.

Lemma binary_round_aux_within (s : bool) (m e : Z) (l : location) (B : Z) :
  0 <= m -> Zdigits2 m + e <= B -> e <= 971 -> -1074 <= B <= 1022 ->
  Float.within (B + 1) s (binary_round_aux Float.prec Float.emax s m e l).
Proof.
  intros Hm HB He HBB. unfold binary_round_aux, shr_fexp.
  pose proof (shr_spec (shr_record_of_loc m l) e
                (fexp Float.prec Float.emax (Zdigits2 m + e) - e)) as S1.
  rewrite shr_m_of_loc in S1. specialize (S1 Hm).
  destruct (shr (shr_record_of_loc m l) e _) as [mrs1 e1].
  cbn [fst snd] in S1. destruct S1 as (M1 & D1 & E1).
  destruct (round_nearest_even_digits (shr_m mrs1)
              (loc_of_shr_record mrs1) M1) as [R0 R1].
  set (m1 := round_nearest_even (shr_m mrs1) (loc_of_shr_record mrs1)) in *.
  pose proof (shr_spec (shr_record_of_loc m1 loc_Exact) e1
                (fexp Float.prec Float.emax (Zdigits2 m1 + e1) - e1)) as S2.
  rewrite shr_m_of_loc in S2. specialize (S2 R0).
  destruct (shr (shr_record_of_loc m1 loc_Exact) e1 _) as [mrs2 e2].
  cbn [fst snd] in S2. destruct S2 as (M2 & D2 & E2).
  unfold fexp, emin, Float.prec, Float.emax in *.
  destruct (shr_m mrs2) as [|p|p] eqn:Em; cbn [Float.within]; [exact I| |lia].
  cbn [Zdigits2] in D2.
  destruct (Z.leb_spec e2 (1024 - 53)); cbn [Float.within]; [split; [reflexivity|lia]|lia].
Qed.

Lemma iter_xO_digits (p d : positive) :
  Zpos (digits2_pos (Pos.iter xO p d)) = Zpos (digits2_pos p) + Zpos d /\
  Zpos (Pos.iter xO p d) = Zpos p * 2 ^ Zpos d.
Proof.
  induction d as [|d IH] using Pos.peano_ind.
  - cbn. rewrite Pos2Z.inj_succ. split; lia.
  - rewrite Pos.iter_succ. cbn [digits2_pos]. destruct IH as [I1 I2].
    rewrite !Pos2Z.inj_succ, Z.pow_succ_r by lia.
    change (Zpos (Pos.iter xO p d)~0) with (2 * Zpos (Pos.iter xO p d)).
    rewrite I1, I2. split; lia.
Qed.

Lemma shl_align_spec (p : positive) (e e' : Z) :
  Zpos (digits2_pos (fst (shl_align p e e'))) + snd (shl_align p e e')
  = Zpos (digits2_pos p) + e /\
  snd (shl_align p e e') = Z.min e e' /\
  Zpos (fst (shl_align p e e'))
  = Zpos p * 2 ^ (e - snd (shl_align p e e')).
Proof.
  unfold shl_align. destruct (e' - e) as [|d|d] eqn:E; cbn [fst snd].
  - rewrite Z.sub_diag. cbn. split; [lia|]. split; lia.
  - rewrite Z.sub_diag. cbn. split; [lia|]. split; lia.
  - destruct (iter_xO_digits p d) as [I1 I2]. rewrite I1, I2.
    replace (e - e') with (Zpos d) by lia. split; [lia|]. split; lia.
Qed.

Lemma binary_round_within (s : bool) (p : positive) (e : Z) (B : Z) :
  Zpos (digits2_pos p) + e <= B -> e <= 971 -> -1074 <= B <= 1022 ->
  Float.within (B + 1) s (binary_round Float.prec Float.emax s p e).
Proof.
  intros HB He HBB. unfold binary_round.
  destruct (shl_align_spec p e
              (fexp Float.prec Float.emax (Zpos (digits2_pos p) + e)))
    as (A1 & A2 & _).
  destruct (shl_align p e _) as [mz ez]. cbn [fst snd] in *.
  apply binary_round_aux_within; cbn [Zdigits2]; lia.
Qed.


(** *** Exact values *)

Lemma within_weaken (B B' : Z) (s : bool) (x : spec_float) :
  Float.within B s x -> B <= B' -> Float.within B' s x.
Proof. destruct x; cbn; try tauto. intros [-> H] L. split; [reflexivity|lia]. Qed.

Lemma within_finite (B : Z) (s : bool) (x : spec_float) :
  Float.within B s x -> Float.is_finite x = true.
Proof. destruct x; cbn; tauto. Qed.

Lemma within_nonneg (B : Z) (x : spec_float) :
  Float.within B false x -> Float.nonneg x = true.
Proof. destruct x as [| | |s m e]; cbn; try tauto. now intros [-> _]. Qed.

Lemma pow2_pos (e : Z) : (0 < (2 # 1) ^ e)%Q.
Proof. apply Qpower_0_lt. reflexivity. Qed.

Lemma to_Q_sign (s : bool) (m : positive) (e : Z) :
  if s then (Float.to_Q (S754_finite s m e) < 0)%Q
  else (0 < Float.to_Q (S754_finite s m e))%Q.
Proof.
  pose proof (pow2_pos e) as P. unfold Float.to_Q.
  destruct s; cbn [cond_Zopp].
  - assert (inject_Z (- Zpos m) < 0)%Q
      by (change 0%Q with (inject_Z 0); rewrite <- Zlt_Qlt; lia).
    nra.
  - assert (0 < inject_Z (Zpos m))%Q
      by (change 0%Q with (inject_Z 0); rewrite <- Zlt_Qlt; lia).
    nra.
Qed.

Lemma cond_Zopp_mul (s : bool) (a b : Z) :
  cond_Zopp s (a * b) = cond_Zopp s a * b.
Proof. destruct s; cbn; lia. Qed.

(** A finite float read at a lower exponent. *)
Lemma to_Q_aligned (s : bool) (m : positive) (e ez : Z) :
  ez <= e ->
  (Float.to_Q (S754_finite s m e)
   == inject_Z (cond_Zopp s (Zpos (fst (shl_align m e ez)))) * (2 # 1) ^ ez)%Q.
Proof.
  intros L. destruct (shl_align_spec m e ez) as (_ & A2 & A3).
  rewrite A3, A2, Z.min_r by assumption.
  rewrite cond_Zopp_mul, inject_Z_mult, Zpower_Qpower by lia.
  change (inject_Z 2) with (2 # 1). unfold Float.to_Q.
  rewrite <- Qmult_assoc, <- Qpower_plus by discriminate.
  replace (e - ez + ez) with e by lia. reflexivity.
Qed.

Lemma aligned_bound (m : positive) (e ez B : Z) :
  ez <= e -> Zpos (digits2_pos m) + e <= B ->
  Zpos (fst (shl_align m e ez)) < 2 ^ (B - ez) /\ 0 < B - ez.
Proof.
  intros L HB. destruct (shl_align_spec m e ez) as (A1 & A2 & _).
  rewrite A2, Z.min_r in A1 by assumption.
  destruct (digits_bounds (fst (shl_align m e ez))) as [_ U].
  assert (2 ^ Zpos (digits2_pos (fst (shl_align m e ez))) <= 2 ^ (B - ez))
    by (apply Z.pow_le_mono_r; lia).
  lia.
Qed.

Lemma reading_finite (s : bool) (m : positive) (e : Z) :
  Float.is_reading (S754_finite s m e) = true ->
  Zpos (digits2_pos m) + e <= 34.
Proof.
  unfold Float.is_reading. intros H. apply andb_true_iff in H as [_ H].
  now apply Z.leb_le.
Qed.

Lemma reading_not_special (x : spec_float) :
  Float.is_reading x = true ->
  match x with S754_infinity _ | S754_nan => False | _ => True end.
Proof.
  unfold Float.is_reading. destruct x; cbn; trivial; discriminate.
Qed.

(** The difference of two clock readings is finite; its sign is that of
    the exact difference. *)
Lemma sub_readings (x y : spec_float) :
  Float.is_reading x = true -> Float.is_reading y = true ->
  (exists s, Float.within 36 s (Float.sub x y)) /\
  ((Float.to_Q y <= Float.to_Q x)%Q -> Float.within 36 false (Float.sub x y)).
Proof.
  intros Rx Ry.
  pose proof (reading_not_special x Rx) as Nx.
  pose proof (reading_not_special y Ry) as Ny.
  destruct x as [sx|sx| |sx mx ex]; try contradiction;
    destruct y as [sy|sy| |sy my ey]; try contradiction.
  - split; [exists false|intros _]; destruct sx, sy; exact I.
  - apply reading_finite in Ry. cbn [Float.sub SFsub]. split.
    + exists (negb sy). cbn [Float.within]. split; [reflexivity|lia].
    + intros L. pose proof (to_Q_sign sy my ey) as S.
      destruct sy; cbn [Float.within negb]; [split; [reflexivity|lia]|].
      exfalso. change (Float.to_Q (S754_zero sx)) with 0%Q in L. lra.
  - apply reading_finite in Rx. cbn [Float.sub SFsub]. split.
    + exists sx. cbn [Float.within]. split; [reflexivity|lia].
    + intros L. pose proof (to_Q_sign sx mx ex) as S.
      destruct sx; cbn [Float.within]; [|split; [reflexivity|lia]].
      exfalso. change (Float.to_Q (S754_zero sy)) with 0%Q in L. lra.
  - apply reading_finite in Rx. apply reading_finite in Ry.
    unfold Float.sub, SFsub. set (ez := Z.min ex ey).
    assert (ez <= ex) as Lx by (subst ez; lia).
    assert (ez <= ey) as Ly by (subst ez; lia).
    destruct (aligned_bound mx ex ez 34 Lx Rx) as [Bx Pz].
    destruct (aligned_bound my ey ez 34 Ly Ry) as [By _].
    pose proof (to_Q_aligned sx mx ex ez Lx) as Vx.
    pose proof (to_Q_aligned sy my ey ez Ly) as Vy.
    set (X := cond_Zopp sx (Zpos (fst (shl_align mx ex ez)))) in *.
    set (Y := cond_Zopp sy (Zpos (fst (shl_align my ey ez)))) in *.
    assert (Z.abs (X - Y) < 2 ^ (35 - ez)) as HD.
    { replace (35 - ez) with (Z.succ (34 - ez)) by lia.
      rewrite Z.pow_succ_r by lia.
      subst X Y. destruct sx, sy; cbn [cond_Zopp]; lia. }
    assert (forall p s, Z.abs (X - Y) = Zpos p ->
                        Float.within 36 s
                          (binary_round Float.prec Float.emax s p ez)) as W.
    { intros p s Ep. apply (binary_round_within s p ez 35); try lia.
      assert (Zdigits2 (Zpos p) <= 35 - ez)
        by (apply digits_le; lia).
      cbn [Zdigits2] in *. lia. }
    unfold binary_normalize. split.
    + destruct (X - Y) as [|p|p] eqn:E.
      * exists false. exact I.
      * exists false. apply W. reflexivity.
      * exists true. apply W. reflexivity.
    + intros L. rewrite Vx, Vy in L.
      assert (Y <= X) as LXY.
      { rewrite Zle_Qle. pose proof (pow2_pos ez). nra. }
      destruct (X - Y) as [|p|p] eqn:E; [exact I| |lia].
      apply W. reflexivity.
Qed.

(** *** Scaling and rounding *)

Lemma of_Z_1000 :
  Float.of_Z 1000 = S754_finite false 8796093022208000 (-43).
Proof. reflexivity. Qed.

Lemma mul_1000_within (B : Z) (s : bool) (x : spec_float) :
  Float.within B s x -> -1074 <= B <= 900 ->
  Float.within (B + 11) s (Float.mul x (Float.of_Z 1000)).
Proof.
  intros W HB. rewrite of_Z_1000.
  destruct x as [s'| | |s' m e]; cbn [Float.within] in W; try contradiction.
  - exact I.
  - destruct W as [-> W]. unfold Float.mul, SFmul.
    rewrite xorb_false_r.
    replace (B + 11) with (B + 10 + 1) by lia.
    pose proof (digits_mul m 8796093022208000) as D.
    change (Zpos (digits2_pos 8796093022208000)) with 53 in D.
    apply binary_round_aux_within; cbn [Zdigits2]; lia.
Qed.

Lemma round_half_even_floor (x : Q) :
  round_half_even x = Qfloor x \/ round_half_even x = Qfloor x + 1.
Proof.
  unfold round_half_even.
  destruct (_ ?= _)%Q; [destruct (Z.even _)|..]; auto.
Qed.

Lemma round_half_even_close (x : Q) :
  (x - (1 # 2) <= inject_Z (round_half_even x) <= x + (1 # 2))%Q.
Proof.
  pose proof (Qfloor_le x) as L. pose proof (Qlt_floor x) as U.
  rewrite inject_Z_plus in U. change (inject_Z 1) with 1%Q in U.
  unfold round_half_even.
  destruct (Qcompare_spec (x - inject_Z (Qfloor x)) (1 # 2)) as [E|E|E];
    [destruct (Z.even _)|..]; rewrite ?inject_Z_plus;
    change (inject_Z 1) with 1%Q;
    generalize dependent (inject_Z (Qfloor x)); intros f; split; lra.
Qed.

Lemma Z_of_Q_bounds (k N : Z) (y : Q) :
  (y - (1 # 2) <= inject_Z k <= y + (1 # 2))%Q ->
  (- inject_Z N < y < inject_Z N)%Q ->
  - N <= k <= N.
Proof.
  intros [L U] [Ly Uy]. split.
  - destruct (Z_le_gt_dec (- N) k) as [|G]; [assumption|exfalso].
    assert (k + 1 <= - N) as G' by lia.
    rewrite Zle_Qle, inject_Z_plus, inject_Z_opp in G'.
    change (inject_Z 1) with 1%Q in G'. lra.
  - destruct (Z_le_gt_dec k N) as [|G]; [assumption|exfalso].
    assert (N + 1 <= k) as G' by lia.
    rewrite Zle_Qle, inject_Z_plus in G'.
    change (inject_Z 1) with 1%Q in G'. lra.
Qed.

Lemma to_Q_magnitude (s : bool) (m : positive) (e B : Z) :
  Zpos (digits2_pos m) + e <= B -> 0 <= B ->
  (- inject_Z (2 ^ B) < Float.to_Q (S754_finite s m e) < inject_Z (2 ^ B))%Q.
Proof.
  intros HB H0.
  assert (inject_Z (Zpos m) * (2 # 1) ^ e < inject_Z (2 ^ B))%Q as M.
  { destruct (digits_bounds m) as [_ U].
    rewrite Zlt_Qlt, Zpower_Qpower in U by lia.
    change (inject_Z 2) with (2 # 1) in U.
    rewrite Zpower_Qpower by lia. change (inject_Z 2) with (2 # 1).
    pose proof (pow2_pos e) as P.
    apply Qlt_le_trans with ((2 # 1) ^ Zpos (digits2_pos m) * (2 # 1) ^ e)%Q.
    - apply Qmult_lt_compat_r; assumption.
    - rewrite <- Qpower_plus by discriminate.
      apply Qpower_le_compat_l; [lia|discriminate]. }
  assert (0 < inject_Z (Zpos m) * (2 # 1) ^ e)%Q as P
    by apply (to_Q_sign false m e).
  unfold Float.to_Q. destruct s; cbn [cond_Zopp].
  - rewrite inject_Z_opp. split; lra.
  - split; lra.
Qed.

Lemma div_within (s : bool) (k : positive) (B : Z) :
  Zpos (digits2_pos k) <= B -> 0 <= B <= 1021 ->
  Float.within (B + 1) s
    (Float.div (S754_finite s k 0) (S754_finite false 100 0)).
Proof.
  intros HB HBB. unfold Float.div, SFdiv. rewrite xorb_false_r.
  unfold SFdiv_core_binary.
  set (e' := Z.min (fexp Float.prec Float.emax
                      (Zdigits2 (Zpos k) + 0 - (Zdigits2 100 + 0)))
                   (0 - 0)).
  assert (e' <= 0) as He by (subst e'; lia).
  set (m' := match 0 - 0 - e' with
             | Z0 => Zpos k
             | Zpos _ => Z.shiftl (Zpos k) (0 - 0 - e')
             | Zneg _ => 0
             end).
  assert (0 <= m' /\ Zdigits2 m' + e' <= Zpos (digits2_pos k)) as [M0 M1].
  { subst m'. destruct (0 - 0 - e') as [|p|p] eqn:E; cbn [Zdigits2]; [lia| |lia].
    rewrite Z.shiftl_mul_pow2 by lia.
    assert (0 < 2 ^ Zpos p) by (apply Z.pow_pos_nonneg; lia).
    split; [lia|].
    assert (Zdigits2 (Zpos k * 2 ^ Zpos p) <= Zpos (digits2_pos k) + Zpos p).
    { apply digits_le; [|lia]. destruct (digits_bounds k) as [_ U].
      rewrite Z.pow_add_r by lia. nia. }
    lia. }
  pose proof (Z_div_mod m' 100 eq_refl) as DM.
  destruct (Z.div_eucl m' 100) as [q r]. destruct DM as [Eq Hr].
  assert (0 <= q <= m') as Hq by lia.
  pose proof (digits_mono q m' Hq).
  apply binary_round_aux_within; lia.
Qed.

Lemma round_2_within (B : Z) (s : bool) (x : spec_float) :
  Float.within B s x -> 0 <= B <= 900 -> Float.within (B + 9) s (Float.round x 2).
Proof.
  intros W HB.
  destruct x as [s'| | |s' m e]; cbn [Float.within] in W; try contradiction.
  - exact I.
  - destruct W as [-> W]. unfold Float.round, Float.of_decimal.
    change (10 ^ Z.of_nat 2) with 100.
    set (y := (Float.to_Q (S754_finite s m e) * inject_Z 100)%Q).
    pose proof (round_half_even_close y) as C.
    pose proof (to_Q_magnitude s m e B W ltac:(lia)) as [ML MU].
    pose proof (to_Q_sign s m e) as S.
    assert (- 2 ^ (B + 7) <= round_half_even y <= 2 ^ (B + 7)) as K.
    { apply (Z_of_Q_bounds _ _ y C).
      rewrite Z.pow_add_r by lia. rewrite inject_Z_mult.
      change (inject_Z (2 ^ 7)) with 128%Q.
      subst y. change (inject_Z 100) with 100%Q.
      assert (0 < inject_Z (2 ^ B))%Q
        by (change 0%Q with (inject_Z 0); rewrite <- Zlt_Qlt;
            apply Z.pow_pos_nonneg; lia).
      split; nra. }
    assert (forall k, Z.abs (round_half_even y) = Zpos k ->
                      Zpos (digits2_pos k) <= B + 8) as D.
    { intros k Ek. change (Zdigits2 (Zpos k) <= B + 8).
      apply digits_le; [|lia].
      replace (B + 8) with (Z.succ (B + 7)) by lia.
      rewrite Z.pow_succ_r by lia.
      assert (0 < 2 ^ (B + 7)) by (apply Z.pow_pos_nonneg; lia). lia. }
    destruct (round_half_even y) as [|k|k] eqn:Ek.
    + exact I.
    + assert (s = false) as ->.
      { destruct s; [exfalso|reflexivity].
        destruct C as [_ C]. subst y.
        change (inject_Z 100) with 100%Q in C.
        assert (1 <= inject_Z (Zpos k))%Q
          by (change 1%Q with (inject_Z 1); rewrite <- Zle_Qle; lia).
        nra. }
      replace (B + 9) with (B + 8 + 1) by lia.
      apply div_within; [apply D; reflexivity|lia].
    + assert (s = true) as ->.
      { destruct s; [reflexivity|exfalso].
        destruct C as [C _]. subst y.
        change (inject_Z 100) with 100%Q in C.
        assert (inject_Z (Zneg k) <= -1)%Q
          by (change (-1)%Q with (inject_Z (-1)); rewrite <- Zle_Qle; lia).
        nra. }
      replace (B + 9) with (B + 8 + 1) by lia.
      apply div_within; [apply D; reflexivity|lia].
Qed.

(** The product the probe rounds is a finite float. *)
Lemma product_within (a b : Float.reading) :
  exists s,
    Float.within 47 s
      (Float.mul (Float.sub (Float.seconds b) (Float.seconds a))
                 (Float.of_Z 1000)).
Proof.
  destruct (sub_readings (Float.seconds b) (Float.seconds a)
              (Float.seconds_plausible b) (Float.seconds_plausible a))
    as [[s W] _].
  exists s. apply (mul_1000_within 36 s); [assumption|lia].
Qed.

(** The elapsed time in milliseconds, as the connectivity probe computes
    it from two clock readings: finite, and not negative when the second
    reading is not below the first. *)
Lemma elapsed_within (a b : Float.reading) :
  Float.is_finite (elapsed_ms a b) = true /\
  ((Float.to_Q (Float.seconds a) <= Float.to_Q (Float.seconds b))%Q ->
   Float.nonneg (elapsed_ms a b) = true).
Proof.
  destruct (sub_readings (Float.seconds b) (Float.seconds a)
              (Float.seconds_plausible b) (Float.seconds_plausible a))
    as [[s W] N].
  unfold elapsed_ms. split.
  - apply (within_finite 56 s).
    apply (round_2_within 47 s); [|lia].
    apply (mul_1000_within 36 s); [assumption|lia].
  - intros L. apply (within_nonneg 56).
    apply (round_2_within 47 false); [|lia].
    apply (mul_1000_within 36 false); [auto|lia].
Qed.

End FloatFacts.

Example round_tie_to_even :
  Float.round (S754_finite false 4503599627370496 (-55)) 2
  = S754_finite false 8646911284551352 (-56).
Proof. vm_compute. reflexivity. Qed.

Example elapsed_eighth_of_a_millisecond :
  elapsed_ms zero_seconds eighth_of_a_millisecond
  = S754_finite false 8646911284551352 (-56).
Proof. vm_compute. reflexivity. Qed.

Example elapsed_half_a_second :
  elapsed_ms ten_seconds ten_and_a_half_seconds
  = S754_finite false 8796093022208000 (-44).
Proof. vm_compute. reflexivity. Qed.

(** ** Health and connectivity *)

Section Probes.
Context `{Runtime}.

(** The connectivity probe, outcome by outcome. *)
Lemma get_api_connectivity_answer (up : Upstream)
      (start_time end_time : Float.reading) :
  get_api_connectivity start_time end_time up
  = ([tags_request 10],
     Ok200 {| OllamaConnectivityResponse.connected :=
                match up (tags_request 10) with
                | Responded r => status_code r =? 200
                | _ => false
                end;
              OllamaConnectivityResponse.ollama_url := OLLAMA_BASE_URL;
              OllamaConnectivityResponse.response_time_ms :=
                Some (elapsed_ms start_time end_time);
              OllamaConnectivityResponse.error_message :=
                probe_message (up (tags_request 10)) |}).
Proof.
  pose proof (proj1 (FloatFacts.elapsed_within start_time end_time)) as F.
  unfold get_api_connectivity, test_ollama_connectivity, respond,
    try_except, bind, send, ret, probe_message.
  cbv zeta. cbn [app]. fold (tags_request 10).
  destruct (up (tags_request 10)) as [r|m|m];
    [destruct (status_code r =? 200)|..];
    unfold as_OllamaConnectivityResponse;
    cbn [OllamaConnectivityResponse.response_time_ms];
    (unfold elapsed_ms in F; rewrite F; reflexivity).
Qed.

Ltac run_probe up :=
  unfold respond, try_except, bind, send, ret; cbn [app];
  fold (tags_request 5); fold (tags_request 10);
  unfold answers_200;
  destruct (up (tags_request _)) as [r|m|m] eqn:E;
  [destruct (Z.eqb_spec (status_code r) 200) as [S|S]|..]; cbn.

Ltac probe_side :=
  solve [ reflexivity | eauto | congruence
        | intros; firstorder congruence ].

(** C5: whatever the upstream does (answers 200, answers another status,
    fails at the transport level, raises anything else), [/health] and
    [/api/connectivity] answer 200; [ollama_connected] and [connected] are
    true exactly when the upstream answered 200, and a failed connectivity
    probe carries an [error_message]. *)
Theorem probes_always_answer_200 (up : Upstream) (timestamp : string)
        (start_time end_time : Float.reading) :
  (exists log h,
      get_health timestamp up = (log, Ok200 h) /\
      http_status (snd (get_health timestamp up)) = 200 /\
      HealthResponse.status h = "healthy" /\
      (HealthResponse.ollama_connected h = true
       <-> answers_200 up (tags_request 5)) /\
      (HealthResponse.ollama_connected h = false
       <-> ~ answers_200 up (tags_request 5))) /\
  (exists log c,
      get_api_connectivity start_time end_time up = (log, Ok200 c) /\
      http_status (snd (get_api_connectivity start_time end_time up)) = 200 /\
      (OllamaConnectivityResponse.connected c = true
       <-> answers_200 up (tags_request 10)) /\
      (OllamaConnectivityResponse.connected c = false
       <-> exists m, OllamaConnectivityResponse.error_message c = Some m)).
Proof.
  split.
  - unfold get_health, health_check. run_probe up;
      eexists _, _; (split; [reflexivity|]); cbn;
      repeat split; probe_side.
  - rewrite get_api_connectivity_answer.
    eexists _, _. split; [reflexivity|]. split; [reflexivity|].
    cbn [OllamaConnectivityResponse.connected
         OllamaConnectivityResponse.error_message].
    unfold answers_200, probe_message.
    destruct (up (tags_request 10)) as [r|m|m] eqn:E;
      [destruct (Z.eqb_spec (status_code r) 200) as [S|S]|..];
      repeat split; probe_side.
Qed.

(** C9, as amended: on every outcome of the probe the connectivity
    response carries [response_time_ms], the float
    [round((end_time - start_time) * 1000, 2)] of the two clock readings.
    It is finite; it is not negative when the second reading is not below
    the first; and it is the float nearest to a decimal with two digits
    after the point, [k / 100], where [k] is within one half of a hundred
    times the product that is rounded. *)
Theorem connectivity_reports_elapsed_time (up : Upstream)
        (start_time end_time : Float.reading) :
  let product :=
    Float.mul (Float.sub (Float.seconds end_time)
                         (Float.seconds start_time))
              (Float.of_Z 1000) in
  exists log c ms,
    get_api_connectivity start_time end_time up = (log, Ok200 c) /\
    OllamaConnectivityResponse.response_time_ms c = Some ms /\
    ms = Float.round product 2 /\
    Float.is_finite ms = true /\
    ((Float.to_Q (Float.seconds start_time)
      <= Float.to_Q (Float.seconds end_time))%Q ->
     Float.nonneg ms = true) /\
    exists zero_sign k,
      ms = Float.of_decimal zero_sign k 100 /\
      (Qabs (inject_Z k - Float.to_Q product * 100) <= 1 # 2)%Q.
Proof.
  cbv zeta. rewrite get_api_connectivity_answer.
  destruct (FloatFacts.elapsed_within start_time end_time) as [F N].
  eexists _, _, _. split; [reflexivity|]. split; [reflexivity|].
  split; [reflexivity|]. split; [exact F|]. split; [exact N|].
  destruct (FloatFacts.product_within start_time end_time) as [s W].
  unfold elapsed_ms.
  destruct (Float.mul _ _) as [s'| | |s' m e]; cbn [Float.within] in W;
    try contradiction.
  - exists s', 0. split; [reflexivity|].
    apply Qabs_Qle_condition. cbn [Float.to_Q].
    change (inject_Z 0) with 0%Q. split; lra.
  - exists s', (round_half_even
                  (Float.to_Q (S754_finite s' m e) * inject_Z 100)).
    split; [reflexivity|].
    pose proof (FloatFacts.round_half_even_close
                  (Float.to_Q (S754_finite s' m e) * inject_Z 100)) as C.
    change (inject_Z 100) with 100%Q in *.
    apply Qabs_Qle_condition. split; lra.
Qed.

End Probes.

(** With the clock set back by half a second between the two readings (a
    first reading of 10.5 s and a second of 10.0 s) the probe reports
    -500.0. *)
Lemma connectivity_elapsed_time_negative :
  exists c ms,
    get_api_connectivity (H := pydantic2)
      ten_and_a_half_seconds ten_seconds
      (always (json_reply 200 "{}" (JObj [])))
    = ([tags_request 10], Ok200 c) /\
    OllamaConnectivityResponse.response_time_ms c = Some ms /\
    ms = S754_finite true 8796093022208000 (-44) /\
    Float.negative ms = true /\
    Float.nonneg ms = false.
Proof.
  eexists _, _. split; [vm_compute; reflexivity|].
  repeat split.
Qed.

(** ** Validation of the generate request *)

Section RequestValidation.
Context `{Runtime}.

(** C10: a body whose [model] and [prompt] are strings, empty or not, and
    whose [stream] is absent or acceptable as a boolean, passes validation
    with the two strings as they are; [stream] is false when absent; the
    endpoint does not answer 422. *)
Theorem generate_request_accepts_empty_strings
        (d : list (string * jvalue)) (model prompt : string) :
  lookup "model" d = Some (JStr model) ->
  lookup "prompt" d = Some (JStr prompt) ->
  (forall s, lookup "stream" d = Some s ->
             exists b, validate_bool s = Some b) ->
  exists request,
    OllamaRequest.validate (JObj d) = Some request /\
    OllamaRequest.model request = model /\
    OllamaRequest.prompt request = prompt /\
    (lookup "stream" d = None -> OllamaRequest.stream request = false) /\
    (forall b, lookup "stream" d = Some (JBool b) ->
               OllamaRequest.stream request = b) /\
    (forall up, snd (post_api_generate (JObj d) up) <> Unprocessable).
Proof.
  intros Hm Hp Hs.
  assert (exists b,
             match lookup "stream" d with
             | None => Some false
             | Some s => validate_bool s
             end = Some b /\
             (lookup "stream" d = None -> b = false) /\
             (forall b', lookup "stream" d = Some (JBool b') -> b = b'))
    as (b & Eb & Habsent & Hbool).
  { destruct (lookup "stream" d) as [s|].
    - destruct (Hs s eq_refl) as [b Eb]. exists b.
      repeat split; [assumption | discriminate |].
      intros b' [= ->]. cbn in Eb. congruence.
    - exists false. repeat split. discriminate. }
  assert (OllamaRequest.validate (JObj d)
          = Some {| OllamaRequest.model := model;
                    OllamaRequest.prompt := prompt;
                    OllamaRequest.stream := b |}) as V.
  { unfold OllamaRequest.validate. rewrite Hm, Hp. cbn. now rewrite Eb. }
  eexists. split; [exact V|]. cbn. repeat split; trivial.
  intros up. unfold post_api_generate. rewrite V.
  rewrite generate_text_stub. discriminate.
Qed.

End RequestValidation.

(** Empty strings pass; a flag that is no boolean does not. *)
Example empty_strings_validate :
  OllamaRequest.validate (H := pydantic2)
    (JObj [("model", JStr EmptyString); ("prompt", JStr EmptyString)])
  = Some {| OllamaRequest.model := EmptyString;
            OllamaRequest.prompt := EmptyString;
            OllamaRequest.stream := false |}.
Proof. reflexivity. Qed.

Example bad_flag_rejected :
  post_api_generate (H := pydantic2)
    (JObj [("model", JStr "m"); ("prompt", JStr "p");
           ("stream", JStr "banana")])
    (always (Crashed "unused"))
  = ([], Unprocessable).
Proof. reflexivity. Qed.

Example missing_prompt_rejected :
  post_api_generate (H := pydantic2) (JObj [("model", JStr "m")])
    (always (Crashed "unused"))
  = ([], Unprocessable).
Proof. reflexivity. Qed.

Lemma generate_request_accepts_empty_strings_witness :
  let d := [("model", JStr EmptyString); ("prompt", JStr EmptyString)] in
  lookup "model" d = Some (JStr EmptyString) /\
  lookup "prompt" d = Some (JStr EmptyString) /\
  (forall s, lookup "stream" d = Some s ->
             exists b, validate_bool (H := pydantic2) s = Some b) /\
  exists request,
    OllamaRequest.validate (H := pydantic2) (JObj d) = Some request /\
    OllamaRequest.model request = EmptyString /\
    OllamaRequest.prompt request = EmptyString /\
    (lookup "stream" d = None -> OllamaRequest.stream request = false) /\
    (forall b, lookup "stream" d = Some (JBool b) ->
               OllamaRequest.stream request = b) /\
    (forall up,
        snd (post_api_generate (H := pydantic2) (JObj d) up)
        <> Unprocessable).
Proof.
  cbv zeta.
  split; [reflexivity|]. split; [reflexivity|].
  split; [cbn; discriminate|].
  apply (generate_request_accepts_empty_strings (H := pydantic2)
           [("model", JStr EmptyString); ("prompt", JStr EmptyString)]
           EmptyString EmptyString);
    [reflexivity | reflexivity | cbn; discriminate].
Defined.

(** ** The model listing *)

Section Listing.
Context `{Runtime}.

Lemma optional_absent (field : option jvalue) (out : option string) :
  validate_optional_str
    (match field with Some v => v | None => JNull end) = Some out ->
  (field = None -> out = None) /\
  (forall s, field = Some (JStr s) -> out = Some s).
Proof.
  intros V. split.
  - intros ->. cbn in V. congruence.
  - intros s ->. cbn in V. congruence.
Qed.

Lemma append_model_info_spec (model_data : jvalue)
      (models models' : list ModelInfo.t) (up : Upstream)
      (log log' : list Request) :
  append_model_info model_data models up log = (log', inr models') ->
  log' = log /\
  exists info, models' = (models ++ [info])%list /\
               entry_maps model_data info.
Proof.
  unfold append_model_info, bind, lift, ret.
  destruct model_data as [| | | | |l|d]; cbn; try discriminate.
  unfold ModelInfo.new.
  destruct (validate_str _) as [n|] eqn:Vn;
    destruct (validate_optional_str
                (match lookup "size" d with Some v => v | None => JNull end))
      as [sz|] eqn:Vs;
    destruct (validate_optional_str
                (match lookup "modified_at" d with
                 | Some v => v | None => JNull end))
      as [md|] eqn:Vm;
    try discriminate.
  intros [= <- <-]. split; [reflexivity|].
  eexists. split; [reflexivity|].
  exists d. split; [reflexivity|]. cbn.
  destruct (optional_absent _ _ Vs) as [S1 S2].
  destruct (optional_absent _ _ Vm) as [M1 M2].
  repeat split; trivial.
  - intros E. rewrite E in Vn. cbn in Vn. congruence.
  - intros s E. rewrite E in Vn. cbn in Vn. congruence.
Qed.











End Listing.

(** ** The theorems at concrete inputs *)


Example listing_without_models_key :
  get_api_models (H := pydantic2)
    (always (json_reply 200 "{}" (JObj [])))
  = ([tags_request 10],
     Ok200 {| ModelsResponse.models := []; ModelsResponse.count := 0 |}).
Proof. reflexivity. Qed.

(** An entry whose [name] is no string fails the listing as a whole. *)
Example listing_with_numeric_name :
  http_status
    (snd (get_api_models (H := pydantic2)
            (always (json_reply 200 "{...}"
               (JObj [("models", JArr [JObj [("name", JInt 7)]])])))))
  = 500.
Proof. reflexivity. Qed.

Lemma connectivity_reports_elapsed_time_witness :
  let up := always (TransportError "Connection refused") in
  (Float.to_Q (Float.seconds ten_seconds)
   <= Float.to_Q (Float.seconds ten_and_a_half_seconds))%Q /\
  exists log c ms,
    get_api_connectivity (H := pydantic2)
      ten_seconds ten_and_a_half_seconds up = (log, Ok200 c) /\
    OllamaConnectivityResponse.response_time_ms c = Some ms /\
    ms = elapsed_ms ten_seconds ten_and_a_half_seconds /\
    Float.is_finite ms = true /\
    Float.nonneg ms = true.
Proof.
  cbv zeta. split; [vm_compute; discriminate|].
  pose proof (connectivity_reports_elapsed_time (H := pydantic2)
                (always (TransportError "Connection refused"))
                ten_seconds ten_and_a_half_seconds) as P.
  cbv zeta in P. destruct P as (log & c & ms & E & T & V & F & N & _).
  exists log, c, ms. repeat split; trivial.
  apply N. vm_compute. discriminate.
Defined.

Example connectivity_refused :
  get_api_connectivity (H := pydantic2) ten_seconds ten_and_a_half_seconds
    (always (TransportError "Connection refused"))
  = ([tags_request 10],
     Ok200 {| OllamaConnectivityResponse.connected := false;
              OllamaConnectivityResponse.ollama_url := OLLAMA_BASE_URL;
              OllamaConnectivityResponse.response_time_ms :=
                Some (S754_finite false 8796093022208000 (-44));
              OllamaConnectivityResponse.error_message :=
                Some "连接错误: Connection refused" |}).
Proof. vm_compute. reflexivity. Qed.

Example health_when_upstream_is_down :
  get_health "2024-05-01 10:00:00"
    (always (TransportError "Connection refused"))
  = ([tags_request 5],
     Ok200 {| HealthResponse.status := "healthy";
              HealthResponse.timestamp := "2024-05-01 10:00:00";
              HealthResponse.ollama_connected := false;
              HealthResponse.ollama_url := OLLAMA_BASE_URL |}).
Proof. reflexivity. Qed.

(** * Further properties of the handlers *)

(** ** Upstream traffic *)

Section Traffic.
Context `{Runtime}.

Lemma quiet_ret {A} (a : A) : quiet (ret a).
Proof. intros up log. reflexivity. Qed.

Lemma quiet_raise {A} (e : exn) : quiet (raise (A := A) e).
Proof. intros up log. reflexivity. Qed.

Lemma quiet_lift {A} (r : exn + A) : quiet (lift r).
Proof. intros up log. reflexivity. Qed.

Lemma quiet_bind {A B} (m : M A) (k : A -> M B) :
  quiet m -> (forall a, quiet (k a)) -> quiet (bind m k).
Proof.
  intros Hm Hk up log. unfold bind. specialize (Hm up log).
  destruct (m up log) as [log' [e|a]]; cbn in *; subst; [reflexivity|].
  apply Hk.
Qed.

Lemma quiet_try_except {A} (body : M A) (handler : exn -> M A) :
  quiet body -> (forall e, quiet (handler e)) ->
  quiet (try_except body handler).
Proof.
  intros Hb Hh up log. unfold try_except. specialize (Hb up log).
  destruct (body up log) as [log' [e|a]]; cbn in *; subst; [|reflexivity].
  apply Hh.
Qed.

Lemma quiet_for_each {A B} (items : list A) (body : A -> B -> M B) :
  (forall x acc, quiet (body x acc)) ->
  forall acc, quiet (for_each items body acc).
Proof.
  intros Hbody. induction items as [|x items IH]; intros acc; cbn.
  - apply quiet_ret.
  - apply quiet_bind; [apply Hbody | exact IH].
Qed.

Lemma quiet_raise_for_status (r : Response) : quiet (raise_for_status r).
Proof.
  unfold raise_for_status.
  destruct (is_success _); [apply quiet_ret | apply quiet_raise].
Qed.

Lemma quiet_response_json (r : Response) : quiet (response_json r).
Proof.
  unfold response_json.
  destruct (json r); [apply quiet_raise | apply quiet_ret].
Qed.

Lemma quiet_append_model_info (x : jvalue) (acc : list ModelInfo.t) :
  quiet (append_model_info x acc).
Proof.
  unfold append_model_info.
  repeat (apply quiet_bind; [apply quiet_lift | intros ?]).
  apply quiet_ret.
Qed.

(** One call of the client, then nothing more. *)
Lemma send_then_quiet {A} (req : Request) (k : Response -> M A)
      (up : Upstream) (log : list Request) :
  (forall r, quiet (k r)) ->
  fst (bind (send req) k up log) = (log ++ [req])%list.
Proof.
  intros Hk. unfold bind, send.
  destruct (up req); cbn; [apply Hk | reflexivity | reflexivity].
Qed.

Lemma respond_log {A B} (response_model : A -> option B) (handler : M A)
      (up : Upstream) :
  fst (respond response_model handler up) = fst (handler up []).
Proof.
  unfold respond. destruct (handler up []) as [log [[]|a]]; reflexivity.
Qed.

Lemma try_except_log {A} (body : M A) (handler : exn -> M A)
      (up : Upstream) (log : list Request) :
  (forall e, quiet (handler e)) ->
  fst (try_except body handler up log) = fst (body up log).
Proof.
  intros Hh. unfold try_except.
  destruct (body up log) as [log' [e|a]]; cbn; [apply Hh | reflexivity].
Qed.

Ltac quiet_handler :=
  intros e; destruct e;
  repeat match goal with
         | |- quiet (if ?c then _ else _) => destruct c
         end;
  first [apply quiet_raise | apply quiet_ret].

(** X1: whatever the upstream does and whatever the outcome, each route
    sends the upstream exactly the one request of its handler (the model
    listing and the connectivity probe [GET /api/tags] with a 10 s timeout,
    the health probe the same with 5 s, the version route
    [GET /api/version]); the delete route, whose call of the client
    fails, sends none, like the root and generate routes. *)
Theorem upstream_traffic (up : Upstream) (model_name timestamp : string)
        (body : jvalue) (start_time end_time : Float.reading) :
  fst (get_api_models up) = [tags_request 10] /\
  fst (get_api_version up) = [version_request] /\
  fst (delete_api_model model_name up) = [] /\
  fst (get_health timestamp up) = [tags_request 5] /\
  fst (get_api_connectivity start_time end_time up) = [tags_request 10] /\
  fst (get_root up) = [] /\
  fst (post_api_generate body up) = [].
Proof.
  repeat split.
  - unfold get_api_models, get_available_models.
    rewrite respond_log, try_except_log by quiet_handler.
    apply (send_then_quiet (tags_request 10)). intros r.
    apply quiet_bind; [apply quiet_raise_for_status | intros _].
    apply quiet_bind; [apply quiet_response_json | intros data].
    apply quiet_bind; [apply quiet_lift | intros has_models].
    apply quiet_bind; [|intros; apply quiet_ret].
    destruct has_models; [|apply quiet_ret].
    apply quiet_bind; [apply quiet_lift | intros entries].
    apply quiet_bind; [apply quiet_lift | intros items].
    apply quiet_for_each. apply quiet_append_model_info.
  - unfold get_api_version, get_ollama_version.
    rewrite respond_log, try_except_log by quiet_handler.
    apply (send_then_quiet version_request). intros r.
    apply quiet_bind; [apply quiet_raise_for_status | intros _].
    apply quiet_response_json.
  - unfold get_health, health_check. rewrite respond_log.
    unfold bind at 1.
    match goal with
    | |- fst (match ?m with _ => _ end) = _ =>
        assert (fst m = [tags_request 5]) as L
    end.
    { rewrite try_except_log by (intros e; apply quiet_ret).
      apply (send_then_quiet (tags_request 5)). intros r.
      destruct (_ =? _); apply quiet_ret. }
    destruct (try_except _ _ up []) as [log' [e|b]]; cbn in *; exact L.
  - now rewrite get_api_connectivity_answer.
  - unfold post_api_generate.
    destruct (OllamaRequest.validate body); [|reflexivity].
    now rewrite generate_text_stub.
Qed.

End Traffic.

(** ** The two proxied routes, uniformly *)

Section ProxiedRoutes.
Context `{Runtime}.

Ltac crash E :=
  unfold tags_request, version_request in *;
  unfold respond, try_except, bind, send, raise; cbn [app]; rewrite E;
  reflexivity.

Lemma get_api_models_crashed (up : Upstream) (m : string) :
  up (tags_request 10) = Crashed m ->
  get_api_models up
  = ([tags_request 10],
     ErrorDetail 500 ("获取模型列表时发生内部错误: " ++ m)).
Proof. intros E. unfold get_api_models, get_available_models. crash E. Qed.

Lemma get_api_version_crashed (up : Upstream) (m : string) :
  up version_request = Crashed m ->
  get_api_version up
  = ([version_request],
     ErrorDetail 500 ("获取版本信息时发生内部错误: " ++ m)).
Proof. intros E. unfold get_api_version, get_ollama_version. crash E. Qed.

Ltac each_route Hin :=
  cbn [proxied_routes In] in Hin;
  destruct Hin as [Hin|[Hin|[]]];
  injection Hin as <- <-; unfold observed.

(** X2: on the listing and version routes a transport failure of the
    upstream call ([httpx.RequestError]: refused connection, DNS, timeout)
    is answered 503, the detail being the connection-failure phrase followed
    by the transport error's text. *)
Theorem proxied_unreachable (req : Request)
        (route : Upstream -> list Request * Z * option detail_body)
        (up : Upstream) (m : string) :
  In (req, route) proxied_routes ->
  up req = TransportError m ->
  route up
  = ([req], 503, Some (Message ("无法连接到 Ollama 服务: " ++ m))).
Proof.
  intros Hin E. each_route Hin.
  - now rewrite (get_api_models_unreachable up m E).
  - now rewrite (get_api_version_unreachable up m E).
Qed.

(** X3: on the listing and version routes an upstream status outside 2xx
    comes back as the gateway's own status.  When the status allows a body
    (200 or more, and not 304) the answer carries a detail that contains
    the upstream's status and its body text; otherwise the answer has no
    body. *)
Theorem proxied_status_passthrough (req : Request)
        (route : Upstream -> list Request * Z * option detail_body)
        (up : Upstream) (r : Response) :
  In (req, route) proxied_routes ->
  up req = Responded r ->
  is_success (status_code r) = false ->
  (body_allowed (status_code r) = true ->
   exists detail,
     route up = ([req], status_code r, Some (Message detail)) /\
     Str.contains (Str.of_int (status_code r)) detail = true /\
     Str.contains (text r) detail = true) /\
  (body_allowed (status_code r) = false ->
   route up = ([req], status_code r, None)).
Proof.
  intros Hin E S. each_route Hin.
  - rewrite (get_api_models_status_error up r E S).
    split; intros ->; [|reflexivity].
    eexists. split; [reflexivity|]. apply status_detail_embeds.
  - rewrite (get_api_version_status_error up r E S).
    split; intros ->; [|reflexivity].
    eexists. split; [reflexivity|]. apply status_detail_embeds.
Qed.

(** X4: on the listing and version routes any other exception of the
    upstream call is answered 500 with a detail that ends with the
    exception's text. *)
Theorem proxied_crash (req : Request)
        (route : Upstream -> list Request * Z * option detail_body)
        (up : Upstream) (m : string) :
  In (req, route) proxied_routes ->
  up req = Crashed m ->
  exists phrase,
    route up = ([req], 500, Some (Message (phrase ++ m))) /\
    Str.contains "内部错误: " phrase = true.
Proof.
  intros Hin E. each_route Hin.
  - rewrite (get_api_models_crashed up m E). eexists.
    split; reflexivity.
  - rewrite (get_api_version_crashed up m E). eexists.
    split; reflexivity.
Qed.

Lemma append_fails_with_fault (x : jvalue) (acc : list ModelInfo.t)
      (up : Upstream) (log log' : list Request) (e : exn) :
  append_model_info x acc up log = (log', inl e) ->
  log' = log /\ exists f, e = Fault f.
Proof.
  unfold append_model_info, bind, lift, ret.
  destruct x as [| | | | | |d]; cbn [py_get];
    try (intros [= <- <-]; eauto).
  unfold ModelInfo.new.
  destruct (validate_str _); destruct (validate_optional_str _);
    destruct (validate_optional_str _); intros [= <- <-]; eauto.
Qed.




End ProxiedRoutes.

(** ** Success paths and the upstream body *)

Section Success.
Context `{Runtime}.

Lemma contains_after (pre needle haystack : string) :
  Str.contains needle haystack = true ->
  Str.contains needle (pre ++ haystack) = true.
Proof.
  intros C. induction pre as [|c pre IH]; cbn [append Str.contains].
  - exact C.
  - rewrite IH. apply orb_true_r.
Qed.



(** X7: the delete route never reaches the upstream: for every model name
    and every upstream it sends no request and answers 500, the detail
    being its internal-error phrase followed by the text of the
    [TypeError] that [client.delete(..., json=...)] raises; it answers
    neither 200 nor 404 nor 503. *)
Theorem delete_always_fails (model_name : string) (up : Upstream) :
  delete_api_model model_name up = ([], ErrorDetail 500 delete_failure) /\
  delete_failure
  = "删除模型时发生内部错误: "
    ++ exn_str (Fault (UnexpectedArgument "AsyncClient.delete" "json")) /\
  forall other_name other_up,
    delete_api_model other_name other_up = delete_api_model model_name up.
Proof. repeat split. Qed.

(** X9: a 2xx answer whose body is not JSON fails the model listing and
    the version route with 500, the detail ending with the decoder's
    message. *)
Theorem body_that_is_not_json (r : Response) (m : string) :
  is_success (status_code r) = true ->
  json r = inl m ->
  let up := always (Responded r) in
  get_api_models up
  = ([tags_request 10],
     ErrorDetail 500 ("获取模型列表时发生内部错误: " ++ m)) /\
  get_api_version up
  = ([version_request],
     ErrorDetail 500 ("获取版本信息时发生内部错误: " ++ m)).
Proof.
  intros S J up. subst up.
  split;
    unfold get_api_models, get_available_models, get_api_version,
      get_ollama_version;
    unfold respond, try_except, bind, send, raise_for_status,
      response_json, raise, ret, always;
    cbn [app]; rewrite S, J; reflexivity.
Qed.

End Success.

(** ** The probes against each other and against the listing *)

Section ProbesCompared.
Context `{Runtime}.

Ltac probe :=
  unfold get_health, health_check, respond, try_except, bind, send, ret;
  cbn [app]; fold (tags_request 5); fold (tags_request 10).

(** X10: the connectivity probe answers with the upstream URL and with an
    [error_message] fixed by the upstream call: none after a 200,
    "HTTP <status>: <body>" after any other status, the transport error's
    text behind "连接错误: ", any other exception's behind "未知错误: ". *)
Theorem connectivity_message (up : Upstream)
        (start_time end_time : Float.reading) :
  exists c,
    snd (get_api_connectivity start_time end_time up) = Ok200 c /\
    OllamaConnectivityResponse.ollama_url c = "http://localhost:11434" /\
    OllamaConnectivityResponse.error_message c
    = probe_message (up (tags_request 10)).
Proof.
  rewrite get_api_connectivity_answer. eexists. repeat split.
Qed.

(** X11: when the upstream treats the two probes alike, [/health] and
    [/api/connectivity] report the same connection state. *)
Theorem probes_agree (up : Upstream) (timestamp : string)
        (start_time end_time : Float.reading) :
  up (tags_request 5) = up (tags_request 10) ->
  exists h c,
    snd (get_health timestamp up) = Ok200 h /\
    snd (get_api_connectivity start_time end_time up) = Ok200 c /\
    HealthResponse.ollama_connected h
    = OllamaConnectivityResponse.connected c.
Proof.
  intros E. rewrite get_api_connectivity_answer. probe. rewrite E.
  destruct (up (tags_request 10)) as [r|m|m];
    [destruct (status_code r =? 200)|..];
    eexists _, _; repeat split.
Qed.

(** X12: the probes look for status 200, the listing for any 2xx: when
    the upstream answers with another 2xx status and a listing without
    [models], [/health] reports the upstream as not connected while
    [/api/models] answers 200 with no models. *)
Theorem probe_and_listing_disagree (r : Response) (timestamp : string)
        (o : list (string * jvalue)) :
  is_success (status_code r) = true ->
  status_code r <> 200 ->
  json r = inr (JObj o) ->
  lookup "models" o = None ->
  let up := always (Responded r) in
  (exists h, snd (get_health timestamp up) = Ok200 h /\
             HealthResponse.ollama_connected h = false) /\
  snd (get_api_models up)
  = Ok200 {| ModelsResponse.models := []; ModelsResponse.count := 0 |}.
Proof.
  intros S N J L up. subst up. split.
  - probe. unfold always.
    destruct (Z.eqb_spec (status_code r) 200); [contradiction|].
    eexists. split; reflexivity.
  - unfold get_api_models, get_available_models.
    unfold respond, try_except, bind, send, raise_for_status,
      response_json, raise, ret, lift, always.
    cbn [app]. rewrite S, J. cbn [py_in]. rewrite L. reflexivity.
Qed.

End ProbesCompared.

(** ** Listings the gateway refuses *)

Section RefusedListings.
Context `{Runtime}.

Lemma append_rejected (x : jvalue) (acc : list ModelInfo.t)
      (up : Upstream) (log : list Request) :
  rejected_entry x = true ->
  exists f, append_model_info x acc up log = (log, inl (Fault f)).
Proof.
  unfold append_model_info, bind, lift, ret.
  destruct x as [| | | | | |d]; cbn [py_get rejected_entry];
    try (intros _; eexists; reflexivity).
  destruct (lookup "name" d) as [[]|]; try discriminate. intros _.
  unfold ModelInfo.new. cbn [validate_str].
  eexists. reflexivity.
Qed.

Lemma for_each_rejected (items : list jvalue) :
  forall (acc : list ModelInfo.t) (up : Upstream) (log : list Request),
    existsb rejected_entry items = true ->
    exists f, for_each items append_model_info acc up log
              = (log, inl (Fault f)).
Proof.
  induction items as [|x items IH]; intros acc up log Hbad;
    [discriminate|].
  cbn [for_each]. unfold bind at 1.
  destruct (append_model_info x acc up log) as [log1 [e|acc1]] eqn:E.
  - apply append_fails_with_fault in E as (-> & f & ->). eauto.
  - cbn [existsb] in Hbad. apply orb_true_iff in Hbad as [Hx|Hrest].
    + destruct (append_rejected x acc up log Hx) as [f F]. congruence.
    + apply append_model_info_spec in E as (-> & _). now apply IH.
Qed.

(** X13: the listing is all or nothing: when the upstream's [models] array
    holds one entry that is no object, or whose [name] is [null], the
    whole call answers 500 with a detail, however many good entries
    surround it. *)
Theorem listing_all_or_nothing (up : Upstream) (r : Response)
        (o : list (string * jvalue)) (entries : list jvalue) :
  up (tags_request 10) = Responded r ->
  is_success (status_code r) = true ->
  json r = inr (JObj o) ->
  lookup "models" o = Some (JArr entries) ->
  existsb rejected_entry entries = true ->
  exists detail,
    get_api_models up = ([tags_request 10], ErrorDetail 500 detail) /\
    Str.contains "获取模型列表时发生内部错误" detail = true.
Proof.
  intros E S J L Hbad. unfold get_api_models, get_available_models.
  unfold respond, try_except. unfold bind at 1, send.
  fold (tags_request 10). rewrite E. cbn [app].
  unfold bind at 1, raise_for_status. rewrite S. unfold ret at 1.
  unfold bind at 1, response_json. rewrite J. unfold ret at 1.
  unfold bind at 1, lift at 1. cbn [py_in]. rewrite L.
  unfold bind at 1. unfold bind at 1, lift at 1. cbn [py_getitem].
  rewrite L. unfold bind at 1, lift at 1. cbn [py_iter].
  destruct (for_each_rejected entries [] up [tags_request 10] Hbad)
    as [f ->].
  eexists. split; reflexivity.
Qed.

(** X14: a [models] key whose value is [null], a boolean or a number is
    not treated as a missing key: the loop cannot iterate over it and the
    call answers 500 with a detail. *)
Theorem listing_models_not_iterable (up : Upstream) (r : Response)
        (o : list (string * jvalue)) (v : jvalue) :
  up (tags_request 10) = Responded r ->
  is_success (status_code r) = true ->
  json r = inr (JObj o) ->
  lookup "models" o = Some v ->
  is_plain_scalar v = true ->
  get_api_models up
  = ([tags_request 10],
     ErrorDetail 500
       ("获取模型列表时发生内部错误: " ++ describe (NotIterable v))).
Proof.
  intros E S J L P. unfold get_api_models, get_available_models.
  unfold respond, try_except. unfold bind at 1, send.
  fold (tags_request 10). rewrite E. cbn [app].
  unfold bind at 1, raise_for_status. rewrite S. unfold ret at 1.
  unfold bind at 1, response_json. rewrite J. unfold ret at 1.
  unfold bind at 1, lift at 1. cbn [py_in]. rewrite L.
  unfold bind at 1. unfold bind at 1, lift at 1. cbn [py_getitem].
  rewrite L. unfold bind at 1, lift at 1.
  destruct v; try discriminate P; reflexivity.
Qed.

(** X18: when [models] is an object or a string instead of an array, the
    loop runs over its keys or characters: an empty one gives the empty
    listing with 200, any other one fails the call with 500. *)
Theorem listing_of_mapping_or_text (up : Upstream) (r : Response)
        (o : list (string * jvalue)) (v : jvalue) :
  up (tags_request 10) = Responded r ->
  is_success (status_code r) = true ->
  json r = inr (JObj o) ->
  lookup "models" o = Some v ->
  is_mapping_or_text v = true ->
  (iterates_nothing v = true ->
   get_api_models up = ([tags_request 10], Ok200 empty_listing)) /\
  (iterates_nothing v = false ->
   exists detail,
     get_api_models up = ([tags_request 10], ErrorDetail 500 detail)).
Proof.
  intros E S J L T.
  assert (forall items,
             py_iter v = inr items ->
             (items = [] ->
              get_api_models up = ([tags_request 10], Ok200 empty_listing)) /\
             (existsb rejected_entry items = true ->
              exists detail,
                get_api_models up
                = ([tags_request 10], ErrorDetail 500 detail))) as Walk.
  { intros items I.
    split; intros Hitems;
      unfold get_api_models, get_available_models;
      unfold respond, try_except; unfold bind at 1, send;
      fold (tags_request 10); rewrite E; cbn [app];
      unfold bind at 1, raise_for_status; rewrite S; unfold ret at 1;
      unfold bind at 1, response_json; rewrite J; unfold ret at 1;
      unfold bind at 1, lift at 1; cbn [py_in]; rewrite L;
      unfold bind at 1; unfold bind at 1, lift at 1; cbn [py_getitem];
      rewrite L; unfold bind at 1, lift at 1; rewrite I.
    - subst items. reflexivity.
    - destruct (for_each_rejected items [] up [tags_request 10] Hitems)
        as [f ->].
      eexists. reflexivity. }
  destruct v as [| | | |s| |d]; try discriminate T.
  - destruct (Walk _ eq_refl) as [Hempty Hbad].
    destruct s as [|c s]; split; intros I; try discriminate I.
    + now apply Hempty.
    + now apply Hbad.
  - destruct (Walk _ eq_refl) as [Hempty Hbad].
    destruct d as [|kv d]; split; intros I; try discriminate I.
    + now apply Hempty.
    + now apply Hbad.
Qed.

End RefusedListings.

(** ** The generate route on every input *)

Section GenerateEverywhere.
Context `{Runtime}.


(** X17: for every body and every upstream the generate route sends no
    upstream request and never answers 200.  It answers 500 exactly when
    the body passes validation, and then without a body of its own (no
    detail); it answers 422 exactly when the body fails validation, and
    then with the list of validation errors as its detail. *)
Theorem generate_never_succeeds (body : jvalue) (up : Upstream) :
  let answer := snd (post_api_generate body up) in
  fst (post_api_generate body up) = [] /\
  http_status answer <> 200 /\
  (http_status answer = 500 <->
   exists request, OllamaRequest.validate body = Some request) /\
  (http_status answer = 422 <-> OllamaRequest.validate body = None) /\
  (answer = InternalServerError <-> http_status answer = 500) /\
  (answer = Unprocessable <-> http_status answer = 422) /\
  (http_detail answer = None <-> http_status answer = 500) /\
  (http_detail answer = Some ValidationErrors <-> http_status answer = 422).
Proof.
  cbv zeta. unfold post_api_generate.
  destruct (OllamaRequest.validate body) as [request|].
  - rewrite generate_text_stub. cbn.
    repeat split; eauto; discriminate.
  - cbn. repeat split; try discriminate. intros [request [=]].
Qed.

End GenerateEverywhere.


(** ** The further properties at concrete inputs *)

Lemma proxied_unreachable_witness :
  let up := always (TransportError "timed out") in
  In (version_request, fun up => observed (get_api_version (H := pydantic2) up))
     (proxied_routes (H := pydantic2)) /\
  up version_request = TransportError "timed out" /\
  observed (get_api_version (H := pydantic2) up)
  = ([version_request], 503,
     Some (Message "无法连接到 Ollama 服务: timed out")).
Proof.
  cbv zeta. split; [right; left; reflexivity|]. split; [reflexivity|].
  apply (proxied_unreachable (H := pydantic2) version_request
           (fun up => observed (get_api_version (H := pydantic2) up))
           (always (TransportError "timed out")) "timed out");
    [right; left; reflexivity | reflexivity].
Defined.

Lemma proxied_status_passthrough_witness :
  let r := {| status_code := 502; text := "bad gateway";
              json := inl "Expecting value" |} in
  let route := fun up => observed (get_api_version (H := pydantic2) up) in
  In (version_request, route) (proxied_routes (H := pydantic2)) /\
  is_success (status_code r) = false /\
  body_allowed (status_code r) = true /\
  exists detail,
    route (always (Responded r))
    = ([version_request], 502, Some (Message detail)) /\
    Str.contains (Str.of_int (status_code r)) detail = true /\
    Str.contains (text r) detail = true.
Proof.
  cbv zeta. split; [right; left; reflexivity|].
  split; [reflexivity|]. split; [reflexivity|].
  apply (proxied_status_passthrough (H := pydantic2) version_request
           (fun up => observed (get_api_version (H := pydantic2) up))
           (always (Responded {| status_code := 502; text := "bad gateway";
                                 json := inl "Expecting value" |}))
           {| status_code := 502; text := "bad gateway";
              json := inl "Expecting value" |});
    [right; left; reflexivity | reflexivity..].
Defined.

Example not_modified_has_no_body :
  let r := {| status_code := 304; text := EmptyString;
              json := inl "Expecting value" |} in
  get_api_models (H := pydantic2) (always (Responded r))
  = ([tags_request 10], NoBody 304).
Proof. reflexivity. Qed.

Lemma proxied_crash_witness :
  let up := always (Crashed "boom") in
  In (tags_request 10, fun up => observed (get_api_models (H := pydantic2) up))
     (proxied_routes (H := pydantic2)) /\
  up (tags_request 10) = Crashed "boom" /\
  exists phrase,
    observed (get_api_models (H := pydantic2) up)
    = ([tags_request 10], 500, Some (Message (phrase ++ "boom"))) /\
    Str.contains "内部错误: " phrase = true.
Proof.
  cbv zeta. split; [left; reflexivity|]. split; [reflexivity|].
  apply (proxied_crash (H := pydantic2) (tags_request 10)
           (fun up => observed (get_api_models (H := pydantic2) up))
           (always (Crashed "boom")) "boom");
    [left; reflexivity | reflexivity].
Defined.



Example version_with_infinity :
  let v := JObj [("version", JStr "0.1.32");
                 ("uptime", JFloat (S754_infinity false))] in
  get_api_version (H := pydantic2) (always (json_reply 200 "{...}" v))
  = ([version_request], InternalServerError).
Proof. reflexivity. Qed.

Example delete_of_any_model :
  delete_api_model (H := pydantic2) "llama3"
    (always (json_reply 200 "{}" (JObj [])))
  = ([], ErrorDetail 500
           ("删除模型时发生内部错误: "
            ++ "AsyncClient.delete() got an unexpected keyword argument 'json'")).
Proof. reflexivity. Qed.

Lemma body_that_is_not_json_witness :
  let r := {| status_code := 200; text := "<html>ok</html>";
              json := inl "Expecting value" |} in
  is_success (status_code r) = true /\
  json r = inl "Expecting value" /\
  get_api_models (H := pydantic2) (always (Responded r))
  = ([tags_request 10],
     ErrorDetail 500 "获取模型列表时发生内部错误: Expecting value") /\
  get_api_version (H := pydantic2) (always (Responded r))
  = ([version_request],
     ErrorDetail 500 "获取版本信息时发生内部错误: Expecting value").
Proof.
  cbv zeta. split; [reflexivity|]. split; [reflexivity|].
  apply (body_that_is_not_json (H := pydantic2)
           {| status_code := 200; text := "<html>ok</html>";
              json := inl "Expecting value" |} "Expecting value");
    reflexivity.
Defined.

Lemma probes_agree_witness :
  let up := always (Responded no_content) in
  up (tags_request 5) = up (tags_request 10) /\
  exists h c,
    snd (get_health "2024-05-01 10:00:00" up) = Ok200 h /\
    snd (get_api_connectivity (H := pydantic2)
           zero_seconds ten_seconds up) = Ok200 c /\
    HealthResponse.ollama_connected h
    = OllamaConnectivityResponse.connected c.
Proof.
  cbv zeta. split; [reflexivity|].
  apply (probes_agree (H := pydantic2) (always (Responded no_content))
           "2024-05-01 10:00:00" zero_seconds ten_seconds).
  reflexivity.
Defined.

Lemma probe_and_listing_disagree_witness :
  let up := always (Responded no_content) in
  is_success (status_code no_content) = true /\
  status_code no_content <> 200 /\
  (exists h, snd (get_health "2024-05-01 10:00:00" up) = Ok200 h /\
             HealthResponse.ollama_connected h = false) /\
  snd (get_api_models (H := pydantic2) up)
  = Ok200 {| ModelsResponse.models := []; ModelsResponse.count := 0 |}.
Proof.
  cbv zeta. split; [reflexivity|]. split; [discriminate|].
  apply (probe_and_listing_disagree (H := pydantic2) no_content
           "2024-05-01 10:00:00" []);
    [reflexivity | discriminate | reflexivity | reflexivity].
Defined.

Lemma listing_all_or_nothing_witness :
  let up := always (Responded broken_listing) in
  existsb rejected_entry
    [JObj [("name", JStr "llama3:latest")]; JStr "mistral"] = true /\
  exists detail,
    get_api_models (H := pydantic2) up
    = ([tags_request 10], ErrorDetail 500 detail) /\
    Str.contains "获取模型列表时发生内部错误" detail = true.
Proof.
  cbv zeta. split; [reflexivity|].
  apply (listing_all_or_nothing (H := pydantic2)
           (always (Responded broken_listing)) broken_listing
           [("models",
             JArr [JObj [("name", JStr "llama3:latest")]; JStr "mistral"])]
           [JObj [("name", JStr "llama3:latest")]; JStr "mistral"]);
    reflexivity.
Defined.

Lemma listing_models_not_iterable_witness :
  let r := {| status_code := 200; text := "{...}";
              json := inr (JObj [("models", JNull)]) |} in
  is_plain_scalar JNull = true /\
  get_api_models (H := pydantic2) (always (Responded r))
  = ([tags_request 10],
     ErrorDetail 500
       ("获取模型列表时发生内部错误: "
        ++ describe (Runtime := pydantic2) (NotIterable JNull))).
Proof.
  cbv zeta. split; [reflexivity|].
  apply (listing_models_not_iterable (H := pydantic2)
           (always (Responded {| status_code := 200; text := "{...}";
                                 json := inr (JObj [("models", JNull)]) |}))
           {| status_code := 200; text := "{...}";
              json := inr (JObj [("models", JNull)]) |}
           [("models", JNull)] JNull);
    reflexivity.
Defined.


Lemma listing_of_mapping_or_text_witness :
  let r := {| status_code := 200; text := "{...}";
              json := inr (JObj [("models", JStr "llama3")]) |} in
  is_mapping_or_text (JStr "llama3") = true /\
  (iterates_nothing (JStr "llama3") = true ->
   get_api_models (H := pydantic2) (always (Responded r))
   = ([tags_request 10], Ok200 empty_listing)) /\
  (iterates_nothing (JStr "llama3") = false ->
   exists detail,
     get_api_models (H := pydantic2) (always (Responded r))
     = ([tags_request 10], ErrorDetail 500 detail)).
Proof.
  cbv zeta. split; [reflexivity|].
  apply (listing_of_mapping_or_text (H := pydantic2)
           (always (Responded
                      {| status_code := 200; text := "{...}";
                         json := inr (JObj [("models", JStr "llama3")]) |}))
           {| status_code := 200; text := "{...}";
              json := inr (JObj [("models", JStr "llama3")]) |}
           [("models", JStr "llama3")] (JStr "llama3"));
    reflexivity.
Defined.

